(** * MoveIt OMPL interface: the multi-query planner allocator and the
    planning-context cache

    A shallow embedding of
    [moveit_planners/ompl/ompl_interface/include/moveit/ompl_interface/planning_context_manager.h]:
    the class [MultiQueryPlannerAllocator] (destructor, [allocatePlanner],
    [allocatePlannerImpl]) and the inline members of [PlanningContextManager].

    C++ objects reached through [std::shared_ptr] live in an arena (a list,
    the address being the index), so that pointer identity, aliasing and
    mutation through a shared pointer are visible.  [std::map] is [gmap].
    Exceptions are a result type. *)

From Stdlib Require Import String Ascii.
From stdpp Require Import gmap strings list fin_maps sorting.

Set Default Proof Using "Type".
Local Open Scope string_scope.

(** ** Exceptions *)

Inductive Exception :=
| bad_lexical_cast      (* thrown by [boost::lexical_cast] *)
| null_dereference.     (* [->] on an empty [shared_ptr]: undefined behaviour *)

Inductive Result (A : Type) :=
| Ok (a : A)
| Throw (e : Exception).
Arguments Ok {A} a.
Arguments Throw {A} e.

Definition bind {A B} (r : Result A) (k : A → Result B) : Result B :=
  match r with
  | Ok a => k a
  | Throw e => Throw e
  end.

Notation "x <- r ; k" := (bind r (λ x, k))
  (at level 20, r at level 100, k at level 200, only parsing).
Notation "' p <- r ; k" := (bind r (λ p, k))
  (at level 20, p pattern, r at level 100, k at level 200, only parsing).

(** ** [boost::lexical_cast<bool>] on a [std::string]

    Boost converts a character range to [bool] like this: the range is not
    empty; its last character is ['1'] (true) or ['0'] (false); before it
    there may be one sign (['+'] always, ['-'] only for false) and then
    only ['0'] characters.  Anything else throws [bad_lexical_cast]. *)

Definition lexical_cast_bool (s : string) : option bool :=
  match rev (list_ascii_of_string s) with
  | [] => None
  | last :: front_rev =>
      let output := Ascii.eqb last "1" in
      if negb output && negb (Ascii.eqb last "0") then None
      else
        match rev front_rev with
        | [] => Some output
        | c :: rest =>
            let zeros :=
              if Ascii.eqb c "+" || (Ascii.eqb c "-" && negb output)
              then rest else c :: rest in
            if forallb (Ascii.eqb "0") zeros then Some output else None
        end
  end.

Definition lexical_cast (s : string) : Result bool :=
  match lexical_cast_bool s with
  | Some b => Ok b
  | None => Throw bad_lexical_cast
  end.

(** ** Configurations *)

(** [std::map<std::string, std::string>] *)
Abbreviation Config := (gmap string string).

(** [ModelBasedPlanningContextSpecification]; [allocatePlanner] reads its
    member [config_] only. *)
Record ModelBasedPlanningContextSpecification := mkSpec {
  config_ : Config
}.

(** The four option names [allocatePlanner] looks for. *)
Definition reserved_options : list string :=
  ["multi_query_planning_enabled"; "load_planner_data";
   "store_planner_data"; "planner_data_path"].

(** The pattern
    [it = cfg.find(key); b = false;
     if (it != cfg.end()) { b = lexical_cast<bool>(it->second); cfg.erase(it); }] *)
Definition find_erase_bool (key : string) (cfg : Config) : Result (bool * Config) :=
  match cfg !! key with
  | Some v => b <- lexical_cast v; Ok (b, delete key cfg)
  | None => Ok (false, cfg)
  end.

(** The same pattern for [planner_data_path], a plain string copy. *)
Definition find_erase_string (key : string) (cfg : Config) : string * Config :=
  match cfg !! key with
  | Some v => (v, delete key cfg)
  | None => ("", cfg)
  end.

(** [ompl::base::PlannerPtr]: an address in the arena of planners; [None]
    is the empty pointer. *)
Abbreviation PlannerPtr := (option nat).

(** ** The allocator over the OMPL interface *)

Section ompl_interface.

(** What the header takes from OMPL and from
    [detail/persisting_prm_planners.h]: the types, the constructors and
    the storage operations.  [PlannerType] stands for the template
    argument [T]; [FS] is the state of the durable storage; [double] is
    the floating-point type of one resource limit. *)
Context {PlannerType SpaceInformation PlannerData FS double : Type}.

(** The planner object, as far as the allocator touches it: each member
    function the allocator calls records its argument. *)
Record Planner := mkPlanner {
  si_ : SpaceInformation;               (* [getSpaceInformation()] *)
  name_ : string;                       (* [setName] *)
  params_ : option (Config * bool);     (* last [params().setParams(cfg, ignoreUnknown)] *)
  pdef_ : option SpaceInformation;      (* [setProblemDefinition(make_shared<ProblemDefinition>(si))] *)
  setup_ : bool;                        (* [setup()] was run *)
  graph_ : PlannerData                  (* what [getPlannerData] reports *)
}.

(** [PlannerData(si)]: empty planner data. *)
Variable PlannerData_new : SpaceInformation → PlannerData.
(** [new T(si)] *)
Variable new_planner : PlannerType → SpaceInformation → Planner.
(** [allocatePersistingPlanner<T>(data)]: a raw pointer to a new planner
    built from [data], or [nullptr] ([None]). *)
Variable allocatePersistingPlanner : PlannerType → PlannerData → option Planner.
(** [storage_.load(path, data)]: the flag returned and [data] afterwards. *)
Variable storage_load : FS → string → PlannerData → bool * PlannerData.
(** [storage_.store(data, path)]: the flag returned and the storage afterwards. *)
Variable storage_store : FS → PlannerData → string → bool * FS.

Record World := mkWorld {
  heap : list Planner;
  fs : FS
}.

Record MultiQueryPlannerAllocator := mkAllocator {
  planners_ : gmap string PlannerPtr;
  planner_data_storage_paths_ : gmap string string
}.

Definition setName (n : string) (p : Planner) : Planner :=
  mkPlanner (si_ p) n (params_ p) (pdef_ p) (setup_ p) (graph_ p).
Definition setParams (cfg : Config) (ignoreUnknown : bool) (p : Planner) : Planner :=
  mkPlanner (si_ p) (name_ p) (Some (cfg, ignoreUnknown)) (pdef_ p) (setup_ p) (graph_ p).
Definition setProblemDefinition (si : SpaceInformation) (p : Planner) : Planner :=
  mkPlanner (si_ p) (name_ p) (params_ p) (Some si) (setup_ p) (graph_ p).
Definition setup (p : Planner) : Planner :=
  mkPlanner (si_ p) (name_ p) (params_ p) (pdef_ p) true (graph_ p).
(** [p->getPlannerData(data)] on a freshly constructed [data]. *)
Definition getPlannerData (p : Planner) (data : PlannerData) : PlannerData :=
  graph_ p.
(** The caller's work on an instance it holds: the graph changes. *)
Definition set_graph (d : PlannerData) (p : Planner) : Planner :=
  mkPlanner (si_ p) (name_ p) (params_ p) (pdef_ p) (setup_ p) d.

(** [m[k]] of [std::map]: a missing key is inserted with an empty pointer. *)
Definition map_index (k : string) (m : gmap string PlannerPtr)
  : PlannerPtr * gmap string PlannerPtr :=
  match m !! k with
  | Some p => (p, m)
  | None => (None, <[k := None]> m)
  end.

(** [planner.reset(raw)] *)
Definition reset (raw : option Planner) (w : World) : PlannerPtr * World :=
  match raw with
  | Some o => (Some (length (heap w)), mkWorld (heap w ++ [o]) (fs w))
  | None => (None, w)
  end.

(** [*planner] *)
Definition deref (planner : PlannerPtr) (w : World) : Result (nat * Planner) :=
  match planner with
  | Some l =>
      match heap w !! l with
      | Some o => Ok (l, o)
      | None => Throw null_dereference
      end
  | None => Throw null_dereference
  end.

(** [planner->f(...)] for a member function that changes the object. *)
Definition arrow (planner : PlannerPtr) (f : Planner → Planner) (w : World) : Result World :=
  '(l, o) <- deref planner w;
  Ok (mkWorld (<[l := f o]> (heap w)) (fs w)).

Definition allocatePlannerImpl (T : PlannerType) (si : SpaceInformation)
    (new_name : string) (spec : ModelBasedPlanningContextSpecification)
    (load_planner_data store_planner_data : bool) (file_path : string)
    (a : MultiQueryPlannerAllocator) (w : World)
  : Result (PlannerPtr * MultiQueryPlannerAllocator * World) :=
  let planner : PlannerPtr := None in
  let '(planner, w) :=
    if load_planner_data then
      let data := PlannerData_new si in
      let '(_, data) := storage_load (fs w) file_path data in
      reset (allocatePersistingPlanner T data) w
    else (planner, w) in
  let '(planner, w) :=
    match planner with
    | None => reset (Some (new_planner T si)) w
    | Some _ => (planner, w)
    end in
  w <- (if negb (String.eqb new_name "") then arrow planner (setName new_name) w
       else Ok w);
  w <- arrow planner (setParams (config_ spec) true) w;
  w <- arrow planner (setProblemDefinition si) w;
  w <- arrow planner setup w;
  let a :=
    if store_planner_data
    then mkAllocator (planners_ a) (<[new_name := file_path]> (planner_data_storage_paths_ a))
    else a in
  Ok (planner, a, w).

Definition allocatePlanner (T : PlannerType) (si : SpaceInformation)
    (new_name : string) (spec : ModelBasedPlanningContextSpecification)
    (a : MultiQueryPlannerAllocator) (w : World)
  : Result (PlannerPtr * MultiQueryPlannerAllocator * World) :=
  let cfg := config_ spec in
  '(multi_query_planning_enabled, cfg) <- find_erase_bool "multi_query_planning_enabled" cfg;
  if multi_query_planning_enabled then
    match planners_ a !! new_name with
    | Some p => Ok (p, a, w)
    | None =>
        '(load_planner_data, cfg) <- find_erase_bool "load_planner_data" cfg;
        '(store_planner_data, cfg) <- find_erase_bool "store_planner_data" cfg;
        let '(planner_data_path, cfg) := find_erase_string "planner_data_path" cfg in
        '(p, a, w) <- allocatePlannerImpl T si new_name spec
                        load_planner_data store_planner_data planner_data_path a w;
        let planners := <[new_name := p]> (planners_ a) in
        let '(p, planners) := map_index new_name planners in
        Ok (p, mkAllocator planners (planner_data_storage_paths_ a), w)
    end
  else
    allocatePlannerImpl T si new_name spec false false "" a w.


(** [std::map] is iterated in ascending key order ([std::less<std::string>],
    bytewise). *)
Definition key_le {V} (x y : string * V) : Prop := String.leb x.1 y.1.

Definition entries {V} (m : gmap string V) : list (string * V) :=
  merge_sort key_le (map_to_list m).

(** One call of [storage_.store] made by the destructor. *)
Record StoreAttempt := mkAttempt {
  att_path : string;
  att_data : PlannerData;
  att_ok : bool
}.

(** The body of the destructor's loop. *)
Definition store_entry
    (acc : Result (gmap string PlannerPtr * World * list StoreAttempt))
    (entry : string * string)
  : Result (gmap string PlannerPtr * World * list StoreAttempt) :=
  '(planners, w, log) <- acc;
  let '(p, planners) := map_index entry.1 planners in
  '(_, o) <- deref p w;
  let data := PlannerData_new (si_ o) in
  let '(p, planners) := map_index entry.1 planners in
  '(_, o) <- deref p w;
  let data := getPlannerData o data in
  let '(ok, fs') := storage_store (fs w) data entry.2 in
  Ok (planners, mkWorld (heap w) fs', (log ++ [mkAttempt entry.2 data ok])%list).

(** [~MultiQueryPlannerAllocator]: the storage afterwards and the calls of
    [storage_.store] in the order they were made. *)
Definition destructor (a : MultiQueryPlannerAllocator) (w : World)
  : Result (World * list StoreAttempt) :=
  '(_, w, log) <- foldl store_entry (Ok (planners_ a, w, []))
                    (entries (planner_data_storage_paths_ a));
  Ok (w, log).

(** ** Histories of one allocator

    What can happen to an allocator between its construction and its
    destruction: calls of [allocatePlanner], and callers working on the
    instances they were handed (the exploration graph of an instance
    changes under a solve).  A call that throws leaves the state as it
    was: [allocatePlanner] throws before it writes. *)

Inductive Event :=
| Allocate (T : PlannerType) (si : SpaceInformation) (new_name : string)
    (spec : ModelBasedPlanningContextSpecification)
| Solve (l : nat) (d : PlannerData).

Definition State : Type := MultiQueryPlannerAllocator * World.

Definition step (st : State) (e : Event) : State :=
  match e with
  | Allocate T si new_name spec =>
      match allocatePlanner T si new_name spec st.1 st.2 with
      | Ok (_, a, w) => (a, w)
      | Throw _ => st
      end
  | Solve l d => (st.1, mkWorld (alter (set_graph d) l (heap st.2)) (fs st.2))
  end.

Definition run (st : State) (es : list Event) : State := foldl step st es.

(** A newly constructed allocator: both maps empty, nothing allocated. *)
Definition new_allocator : MultiQueryPlannerAllocator := mkAllocator ∅ ∅.
Definition init (fs0 : FS) : State := (new_allocator, mkWorld [] fs0).

(** *** Reading the code

    Abbreviations used to state what a call did: the value of an option
    as the code reads it, the object a constructing call starts from, the
    member calls made on it afterwards, and the predicates and measures
    the properties are stated with. *)

Definition bool_option (key : string) (cfg : Config) : Result bool :=
  match cfg !! key with
  | Some v => lexical_cast v
  | None => Ok false
  end.

Definition string_option (key : string) (cfg : Config) : string :=
  default "" (cfg !! key).

Definition constructed (T : PlannerType) (si : SpaceInformation)
    (load_planner_data : bool) (file_path : string) (files : FS) : Planner :=
  if load_planner_data then
    default (new_planner T si)
      (allocatePersistingPlanner T (storage_load files file_path (PlannerData_new si)).2)
  else new_planner T si.

Definition configured (si : SpaceInformation) (new_name : string)
    (spec : ModelBasedPlanningContextSpecification) (o : Planner) : Planner :=
  setup (setProblemDefinition si (setParams (config_ spec) true
    (if negb (String.eqb new_name "") then setName new_name o else o))).

(** What [allocatePlanner] comes to once the erasures on the local copy
    [cfg] are carried out; shown equal to it below. *)

Definition allocatePlanner_outcome (T : PlannerType) (si : SpaceInformation)
    (new_name : string) (spec : ModelBasedPlanningContextSpecification)
    (a : MultiQueryPlannerAllocator) (w : World)
  : Result (PlannerPtr * MultiQueryPlannerAllocator * World) :=
  mq <- bool_option "multi_query_planning_enabled" (config_ spec);
  if mq then
    match planners_ a !! new_name with
    | Some p => Ok (p, a, w)
    | None =>
        load <- bool_option "load_planner_data" (config_ spec);
        store <- bool_option "store_planner_data" (config_ spec);
        let path := string_option "planner_data_path" (config_ spec) in
        Ok (Some (length (heap w)),
            mkAllocator (<[new_name := Some (length (heap w))]> (planners_ a))
              (if store then <[new_name := path]> (planner_data_storage_paths_ a)
               else planner_data_storage_paths_ a),
            mkWorld (heap w ++ [configured si new_name spec
                                  (constructed T si load path (fs w))])
                    (fs w))
    end
  else
    Ok (Some (length (heap w)), a,
        mkWorld (heap w ++ [configured si new_name spec (new_planner T si)]) (fs w)).

(** A boolean option that is present with a value [lexical_cast<bool>]
    rejects. *)
Definition unparsable (key : string) (cfg : Config) : Prop :=
  ∃ v, cfg !! key = Some v ∧ lexical_cast_bool v = None.

(** Every cached pointer is non-null and points to an object that was
    set up; every name with a storage path is cached. *)
Definition live (a : MultiQueryPlannerAllocator) (w : World) : Prop :=
  ∀ n p, planners_ a !! n = Some p →
    ∃ l o, p = Some l ∧ heap w !! l = Some o ∧ setup_ o = true.

Definition registered (a : MultiQueryPlannerAllocator) : Prop :=
  ∀ n path, planner_data_storage_paths_ a !! n = Some path →
    is_Some (planners_ a !! n).

Definition allocator_inv (st : State) : Prop := live st.1 st.2 ∧ registered st.1.

(** One store attempt for the entry [e]: to its path, with the graph of
    the object its name is cached under. *)
Definition attempt_of (planners : gmap string PlannerPtr)
    (h : list Planner)
    (e : string * string) (att : StoreAttempt) : Prop :=
  att_path att = e.2
  ∧ ∃ l o, planners !! e.1 = Some (Some l) ∧ h !! l = Some o
           ∧ att_data att = graph_ o.

(** The storage after the calls of a log, made in order. *)
Definition stored (files : FS) (log : list StoreAttempt) : FS :=
  foldl (λ f att, (storage_store f (att_data att) (att_path att)).2) files log.

(** The flag of each attempt of a log is the one [storage_.store]
    returns when the calls of the log are made in order from [files]. *)
Fixpoint faithful (files : FS) (log : list StoreAttempt) : Prop :=
  match log with
  | [] => True
  | att :: log' =>
      att_ok att = (storage_store files (att_data att) (att_path att)).1
      ∧ faithful (storage_store files (att_data att) (att_path att)).2 log'
  end.

(** Two properties a storage may have: what a successful store wrote to
    a path is what a load from that path reads; and a store to one path,
    successful or not, changes nothing a load from another path reads. *)
Definition load_after_store : Prop :=
  ∀ files d path files' d0,
    storage_store files d path = (true, files') →
    storage_load files' path d0 = (true, d).

Definition store_keeps_other_paths : Prop :=
  ∀ files d path ok files' path' d0,
    storage_store files d path = (ok, files') →
    path' ≠ path →
    storage_load files' path' d0 = storage_load files path' d0.

(** The number of steps of a history at which the entry of [n] in
    [planners_] changes. *)
Fixpoint creations (n : string) (st : State) (es : list Event) : nat :=
  match es with
  | [] => 0
  | e :: es' =>
      (if decide (planners_ (step st e).1 !! n = planners_ st.1 !! n) then 0 else 1)
      + creations n (step st e) es'
  end.

(** ** [PlanningContextManager] *)

(** [planning_interface::PlannerConfigurationSettings] *)
Record PlannerConfigurationSettings := mkSettings {
  group : string;
  name : string;
  config : Config
}.

(** [ModelBasedStateSpaceFactory], as far as the manager uses it. *)
Record ModelBasedStateSpaceFactory := mkFactory {
  getType : string;
  getNewStateSpace : string → SpaceInformation
}.

(** The key of a cached context: group, configuration name,
    representation type. *)
Abbreviation ContextKey := (string * string * string)%type.

(** The data members of the class.  [known_planners_] maps a planner
    identifier to the [T] its allocator was instantiated at; the two
    opaque handles [robot_model_] and [constraint_sampler_manager_] take
    no part in what follows. *)
Record PlanningContextManager := mkManager {
  known_planners_ : gmap string PlannerType;
  state_space_factories_ : gmap string ModelBasedStateSpaceFactory;
  planner_configs_ : gmap string PlannerConfigurationSettings;
  max_goal_samples_ : N;
  max_state_sampling_attempts_ : N;
  max_goal_sampling_attempts_ : N;
  max_planning_threads_ : N;
  max_solution_segment_length_ : double;
  minimum_waypoint_count_ : N;
  planner_allocator_ : MultiQueryPlannerAllocator;
  cached_contexts_ : gmap ContextKey nat
}.

Definition getPlannerConfigurations (m : PlanningContextManager) :=
  planner_configs_ m.

Definition setMaximumStateSamplingAttempts (v : N) (m : PlanningContextManager) :=
  mkManager (known_planners_ m) (state_space_factories_ m) (planner_configs_ m)
    (max_goal_samples_ m) v (max_goal_sampling_attempts_ m)
    (max_planning_threads_ m) (max_solution_segment_length_ m)
    (minimum_waypoint_count_ m) (planner_allocator_ m) (cached_contexts_ m).

Definition setMaximumGoalSamplingAttempts (v : N) (m : PlanningContextManager) :=
  mkManager (known_planners_ m) (state_space_factories_ m) (planner_configs_ m)
    (max_goal_samples_ m) (max_state_sampling_attempts_ m) v
    (max_planning_threads_ m) (max_solution_segment_length_ m)
    (minimum_waypoint_count_ m) (planner_allocator_ m) (cached_contexts_ m).

Definition setMaximumGoalSamples (v : N) (m : PlanningContextManager) :=
  mkManager (known_planners_ m) (state_space_factories_ m) (planner_configs_ m)
    v (max_state_sampling_attempts_ m) (max_goal_sampling_attempts_ m)
    (max_planning_threads_ m) (max_solution_segment_length_ m)
    (minimum_waypoint_count_ m) (planner_allocator_ m) (cached_contexts_ m).

Definition setMaximumPlanningThreads (v : N) (m : PlanningContextManager) :=
  mkManager (known_planners_ m) (state_space_factories_ m) (planner_configs_ m)
    (max_goal_samples_ m) (max_state_sampling_attempts_ m)
    (max_goal_sampling_attempts_ m) v (max_solution_segment_length_ m)
    (minimum_waypoint_count_ m) (planner_allocator_ m) (cached_contexts_ m).

Definition setMaximumSolutionSegmentLength (mssl : double) (m : PlanningContextManager) :=
  mkManager (known_planners_ m) (state_space_factories_ m) (planner_configs_ m)
    (max_goal_samples_ m) (max_state_sampling_attempts_ m)
    (max_goal_sampling_attempts_ m) (max_planning_threads_ m) mssl
    (minimum_waypoint_count_ m) (planner_allocator_ m) (cached_contexts_ m).

Definition setMinimumWaypointCount (mwc : N) (m : PlanningContextManager) :=
  mkManager (known_planners_ m) (state_space_factories_ m) (planner_configs_ m)
    (max_goal_samples_ m) (max_state_sampling_attempts_ m)
    (max_goal_sampling_attempts_ m) (max_planning_threads_ m)
    (max_solution_segment_length_ m) mwc (planner_allocator_ m) (cached_contexts_ m).

Definition registerPlannerAllocator (planner_id : string) (pa : PlannerType)
    (m : PlanningContextManager) :=
  mkManager (<[planner_id := pa]> (known_planners_ m)) (state_space_factories_ m)
    (planner_configs_ m) (max_goal_samples_ m) (max_state_sampling_attempts_ m)
    (max_goal_sampling_attempts_ m) (max_planning_threads_ m)
    (max_solution_segment_length_ m) (minimum_waypoint_count_ m)
    (planner_allocator_ m) (cached_contexts_ m).

Definition registerStateSpaceFactory (factory : ModelBasedStateSpaceFactory)
    (m : PlanningContextManager) :=
  mkManager (known_planners_ m) (<[getType factory := factory]> (state_space_factories_ m))
    (planner_configs_ m) (max_goal_samples_ m) (max_state_sampling_attempts_ m)
    (max_goal_sampling_attempts_ m) (max_planning_threads_ m)
    (max_solution_segment_length_ m) (minimum_waypoint_count_ m)
    (planner_allocator_ m) (cached_contexts_ m).

Definition getMaximumStateSamplingAttempts (m : PlanningContextManager) : N :=
  max_state_sampling_attempts_ m.
Definition getMaximumGoalSamplingAttempts (m : PlanningContextManager) : N :=
  max_goal_sampling_attempts_ m.
Definition getMaximumGoalSamples (m : PlanningContextManager) : N :=
  max_goal_samples_ m.
Definition getMaximumPlanningThreads (m : PlanningContextManager) : N :=
  max_planning_threads_ m.
Definition getMaximumSolutionSegmentLength (m : PlanningContextManager) : double :=
  max_solution_segment_length_ m.
Definition getMinimumWaypointCount (m : PlanningContextManager) : N :=
  minimum_waypoint_count_ m.
Definition getRegisteredPlannerAllocators (m : PlanningContextManager) :=
  known_planners_ m.
Definition getRegisteredStateSpaceFactories (m : PlanningContextManager) :=
  state_space_factories_ m.

(** Sequences of calls of the setters and of the two registration
    members, to state what they do together. *)
Inductive Limit :=
| StateSamplingAttempts
| GoalSamplingAttempts
| GoalSamples
| PlanningThreads
| WaypointCount.

#[global] Instance Limit_eq_dec : EqDecision Limit.
Proof. solve_decision. Defined.

Inductive LimitUpdate :=
| SetLimit (k : Limit) (v : N)
| SetSegmentLength (mssl : double).

Definition get_limit (k : Limit) (m : PlanningContextManager) : N :=
  match k with
  | StateSamplingAttempts => getMaximumStateSamplingAttempts m
  | GoalSamplingAttempts => getMaximumGoalSamplingAttempts m
  | GoalSamples => getMaximumGoalSamples m
  | PlanningThreads => getMaximumPlanningThreads m
  | WaypointCount => getMinimumWaypointCount m
  end.

Definition set_limit (m : PlanningContextManager) (u : LimitUpdate)
  : PlanningContextManager :=
  match u with
  | SetLimit StateSamplingAttempts v => setMaximumStateSamplingAttempts v m
  | SetLimit GoalSamplingAttempts v => setMaximumGoalSamplingAttempts v m
  | SetLimit GoalSamples v => setMaximumGoalSamples v m
  | SetLimit PlanningThreads v => setMaximumPlanningThreads v m
  | SetLimit WaypointCount v => setMinimumWaypointCount v m
  | SetSegmentLength mssl => setMaximumSolutionSegmentLength mssl m
  end.

(** The value the updates [us] give the limit [k], if they set it. *)
Definition limit_set (k : Limit) (us : list LimitUpdate) : option N :=
  last (omap (λ u, match u with
                   | SetLimit k' v =>
                       if decide (k' = k)
                       then Some v else None
                   | SetSegmentLength _ => None
                   end) us).

Definition segment_length_set (us : list LimitUpdate) : option double :=
  last (omap (λ u, match u with
                   | SetLimit _ _ => None
                   | SetSegmentLength mssl => Some mssl
                   end) us).

Definition register_planners (m : PlanningContextManager)
    (regs : list (string * PlannerType)) : PlanningContextManager :=
  foldl (λ m reg, registerPlannerAllocator reg.1 reg.2 m) m regs.

Definition register_factories (m : PlanningContextManager)
    (factories : list ModelBasedStateSpaceFactory) : PlanningContextManager :=
  foldl (λ m factory, registerStateSpaceFactory factory m) m factories.

(** *** The members that are declared in the header and defined elsewhere *)

(** The planning context: group, configuration, representation, the
    allocated algorithm instance and the resource limits in force when it
    was built. *)
Record ModelBasedPlanningContext := mkContext {
  ctx_group : string;
  ctx_config : string;
  ctx_factory_type : string;
  ctx_space : SpaceInformation;
  ctx_planner : PlannerPtr;
  ctx_max_goal_samples : N;
  ctx_max_state_sampling_attempts : N;
  ctx_max_goal_sampling_attempts : N;
  ctx_max_planning_threads : N;
  ctx_max_solution_segment_length : double;
  ctx_minimum_waypoint_count : N
}.

(** The planner arena and storage, and the arena of planning contexts. *)
Record Memory := mkMemory {
  world : World;
  contexts : list ModelBasedPlanningContext
}.

Inductive ErrorKind :=
| UnknownConfiguration
| UnknownRepresentation
| NoSuitableRepresentation
| UnknownAlgorithm
| InvalidOptionValue.

(** Modelled from the spec: the definition of [setPlannerConfigurations]
    is not in the header.  It "replaces the entire configuration set
    atomically and invalidates the PlanningContextCache". *)
Definition setPlannerConfigurations
    (pconfig : gmap string PlannerConfigurationSettings)
    (m : PlanningContextManager) : PlanningContextManager :=
  mkManager (known_planners_ m) (state_space_factories_ m) pconfig
    (max_goal_samples_ m) (max_state_sampling_attempts_ m)
    (max_goal_sampling_attempts_ m) (max_planning_threads_ m)
    (max_solution_segment_length_ m) (minimum_waypoint_count_ m)
    (planner_allocator_ m) ∅.

(** Modelled from the spec: selection of a representation by inspection
    (the definition of [getStateSpaceFactory2] is not in the header), used
    when the caller names no representation type.  Which factory it picks
    is left open: the cache does not depend on it. *)
Variable select_by_inspection :
  gmap string ModelBasedStateSpaceFactory → string → option ModelBasedStateSpaceFactory.

(** Modelled from the spec: the definition of [getStateSpaceFactory1] is
    not in the header.  "If the request names a representation type, look
    it up directly; fail with UnknownRepresentation if absent"; without a
    type, selection is by inspection and fails with
    NoSuitableRepresentation. *)
Definition getStateSpaceFactory (group_name factory_type : string)
    (m : PlanningContextManager) : ErrorKind + ModelBasedStateSpaceFactory :=
  if String.eqb factory_type "" then
    match select_by_inspection (state_space_factories_ m) group_name with
    | Some f => inr f
    | None => inl NoSuitableRepresentation
    end
  else
    match state_space_factories_ m !! factory_type with
    | Some f => inr f
    | None => inl UnknownRepresentation
    end.

(** Modelled from the spec: the definition of
    [getPlanningContext(config, factory_type)] is not in the header.  The
    cache key is (group, resolved configuration name, resolved
    representation type).  On a hit the cached context is returned
    unchanged.  On a miss the representation is built, the algorithm
    named by the configuration's options (option [type]) is allocated
    through the [MultiQueryPlannerAllocator] under the configuration's
    name, the context is assembled, inserted and returned.  A failure
    caches nothing. *)
Definition getPlanningContext (config_name factory_type : string)
    (m : PlanningContextManager) (mem : Memory)
  : ErrorKind + (nat * PlanningContextManager * Memory) :=
  match planner_configs_ m !! config_name with
  | None => inl UnknownConfiguration
  | Some pc =>
      match getStateSpaceFactory (group pc) factory_type m with
      | inl e => inl e
      | inr factory =>
          let key := (group pc, name pc, getType factory) in
          match cached_contexts_ m !! key with
          | Some c => inr (c, m, mem)
          | None =>
              match config pc !! "type" ≫= λ id, known_planners_ m !! id with
              | None => inl UnknownAlgorithm
              | Some T =>
                  let si := getNewStateSpace factory (group pc) in
                  match allocatePlanner T si (name pc) (mkSpec (config pc))
                          (planner_allocator_ m) (world mem) with
                  | Throw _ => inl InvalidOptionValue
                  | Ok (p, a, w) =>
                      let ctx :=
                        mkContext (group pc) (name pc) (getType factory) si p
                          (max_goal_samples_ m) (max_state_sampling_attempts_ m)
                          (max_goal_sampling_attempts_ m) (max_planning_threads_ m)
                          (max_solution_segment_length_ m) (minimum_waypoint_count_ m) in
                      let c := length (contexts mem) in
                      inr (c,
                           mkManager (known_planners_ m) (state_space_factories_ m)
                             (planner_configs_ m) (max_goal_samples_ m)
                             (max_state_sampling_attempts_ m)
                             (max_goal_sampling_attempts_ m) (max_planning_threads_ m)
                             (max_solution_segment_length_ m)
                             (minimum_waypoint_count_ m) a
                             (<[key := c]> (cached_contexts_ m)),
                           mkMemory w (contexts mem ++ [ctx])%list)
                  end
              end
          end
      end
  end.

(** Every cached context pointer is an address of the context arena. *)
Definition cache_wf (m : PlanningContextManager) (mem : Memory) : Prop :=
  map_Forall (λ _ c, c < length (contexts mem)) (cached_contexts_ m).

End ompl_interface.

Arguments Planner : clear implicits.
Arguments World : clear implicits.
Arguments StoreAttempt : clear implicits.
Arguments Event : clear implicits.
Arguments State : clear implicits.
Arguments PlanningContextManager : clear implicits.
Arguments ModelBasedStateSpaceFactory : clear implicits.
Arguments ModelBasedPlanningContext : clear implicits.
Arguments Memory : clear implicits.

(** ** An in-memory OMPL

    A small instance of the interface, to run the embedding on concrete
    inputs: two planner types, of which [PRM] has a persisting
    constructor; planner data is a space and a list of vertices; the
    storage maps a path to the data stored there; a store to the empty
    path fails, a load from a path that holds nothing fails and leaves
    the data empty. *)

Module Mock.

Inductive PlannerType := RRT | PRM.

Definition SpaceInformation := nat.
Definition PlannerData : Type := nat * list nat.
Definition FS := gmap string PlannerData.

Definition PlannerData_new (si : SpaceInformation) : PlannerData := (si, []).

Definition new_planner (T : PlannerType) (si : SpaceInformation)
  : Planner SpaceInformation PlannerData :=
  mkPlanner si (match T with RRT => "RRT" | PRM => "PRM" end) None None false (si, []).

Definition allocatePersistingPlanner (T : PlannerType) (data : PlannerData)
  : option (Planner SpaceInformation PlannerData) :=
  match T with
  | RRT => None
  | PRM => Some (mkPlanner data.1 "PRM" None None false data)
  end.

Definition storage_load (fs : FS) (path : string) (data : PlannerData)
  : bool * PlannerData :=
  match fs !! path with
  | Some d => (true, d)
  | None => (false, (data.1, []))
  end.

Definition storage_store (fs : FS) (data : PlannerData) (path : string) : bool * FS :=
  if String.eqb path "" then (false, fs) else (true, <[path := data]> fs).

Definition allocate :=
  allocatePlanner PlannerData_new new_planner allocatePersistingPlanner storage_load.

Definition teardown :=
  destructor (FS:=FS) PlannerData_new storage_store.

Definition history :=
  run PlannerData_new new_planner allocatePersistingPlanner storage_load.

Definition start : State SpaceInformation PlannerData FS := init ∅.

(** The scenario of the specification, with the values the code accepts. *)
Definition rrt_fast : ModelBasedPlanningContextSpecification :=
  mkSpec (list_to_map
    [("multi_query_planning_enabled", "1"); ("store_planner_data", "1");
     ("planner_data_path", "/tmp/rrt_fast.dat"); ("range", "0.5")]).

(** The same scenario with the values as the specification writes them. *)
Definition rrt_fast_true : ModelBasedPlanningContextSpecification :=
  mkSpec (list_to_map
    [("multi_query_planning_enabled", "true"); ("store_planner_data", "true");
     ("planner_data_path", "/tmp/rrt_fast.dat")]).

(** The options of [rrt_fast] with multi-query planning switched off. *)
Definition flag_off : ModelBasedPlanningContextSpecification :=
  mkSpec (<["multi_query_planning_enabled" := "0"]> (config_ rrt_fast)).

(** Multi-query planning enabled, with other options than [rrt_fast]. *)
Definition other_options : ModelBasedPlanningContextSpecification :=
  mkSpec (list_to_map
    [("multi_query_planning_enabled", "1"); ("load_planner_data", "1");
     ("planner_data_path", "/tmp/other.dat"); ("range", "2.0")]).

(** Loading asked for, from a path that holds nothing. *)
Definition load_missing : ModelBasedPlanningContextSpecification :=
  mkSpec (list_to_map
    [("multi_query_planning_enabled", "1"); ("load_planner_data", "1");
     ("planner_data_path", "/nonexistent")]).

(** A single-shot configuration with an unreadable [load_planner_data]. *)
Definition single_shot_yes : ModelBasedPlanningContextSpecification :=
  mkSpec (list_to_map [("load_planner_data", "yes"); ("range", "0.5")]).

(** The allocator after the first call of the scenario, and after the
    caller has grown the graph of the instance it was handed. *)
Definition first_call := history start [Allocate PRM 7 "arm[rrt_fast]" rrt_fast].
Definition solved := history first_call [Solve 0 (7, [1; 2; 3])].

(** Two stored planners, the first of them with no path: its store fails. *)
Definition no_path : ModelBasedPlanningContextSpecification :=
  mkSpec (list_to_map
    [("multi_query_planning_enabled", "1"); ("store_planner_data", "1")]).

Definition two_stored :=
  history start
    [Allocate PRM 7 "arm[a]" no_path; Allocate PRM 7 "arm[rrt_fast]" rrt_fast;
     Solve 0 (7, [4]); Solve 1 (7, [5; 6])].

(** What the destructor returns on [solved], and a configuration that
    loads what it stored. *)
Definition torn_down :=
  match teardown solved.1 solved.2 with
  | Ok r => r
  | Throw _ => (solved.2, [])
  end.

Definition reload : ModelBasedPlanningContextSpecification :=
  mkSpec (list_to_map
    [("multi_query_planning_enabled", "1"); ("load_planner_data", "1");
     ("planner_data_path", "/tmp/rrt_fast.dat")]).

(** A stand-in for floating-point numbers; no arithmetic is done on it. *)
Definition double := Z.

Definition select_by_inspection
    (factories : gmap string (ModelBasedStateSpaceFactory SpaceInformation))
    (group_name : string) : option (ModelBasedStateSpaceFactory SpaceInformation) :=
  factories !! "JointModel".

Definition arm_configs : gmap string PlannerConfigurationSettings :=
  {[ "arm[rrt_fast]" :=
       mkSettings "arm" "arm[rrt_fast]" (<["type" := "geometric::PRM"]> (config_ rrt_fast)) ]}.

(** A manager with two registered planners, one representation and the
    configuration above; nothing cached. *)
Definition manager : PlanningContextManager PlannerType SpaceInformation double :=
  registerStateSpaceFactory (mkFactory "JointModel" String.length)
    (registerPlannerAllocator "geometric::PRM" PRM
       (registerPlannerAllocator "geometric::RRT" RRT
          (mkManager ∅ ∅ arm_configs 10 4 1000 4 0%Z 2 new_allocator ∅))).

Definition memory : Memory SpaceInformation PlannerData FS double :=
  mkMemory (mkWorld [] ∅) [].

Definition context :=
  getPlanningContext PlannerData_new new_planner allocatePersistingPlanner storage_load
    (double:=double) select_by_inspection.

(** The manager and memory after a first [getPlanningContext], and after
    the configurations were set again and the context asked for again. *)
Definition built :=
  match context "arm[rrt_fast]" "" manager memory with
  | inr r => r
  | inl _ => (0, manager, memory)
  end.

Definition rebuilt :=
  match context "arm[rrt_fast]" ""
          (setPlannerConfigurations arm_configs built.1.2) built.2 with
  | inr r => r
  | inl _ => (0, manager, memory)
  end.

End Mock.

(** * Properties *)

Section properties.

Context {PlannerType SpaceInformation PlannerData FS double : Type}.
Variable PlannerData_new : SpaceInformation → PlannerData.
Variable new_planner : PlannerType → SpaceInformation → Planner SpaceInformation PlannerData.
Variable allocatePersistingPlanner :
  PlannerType → PlannerData → option (Planner SpaceInformation PlannerData).
Variable storage_load : FS → string → PlannerData → bool * PlannerData.
Variable storage_store : FS → PlannerData → string → bool * FS.
Variable select_by_inspection :
  gmap string (ModelBasedStateSpaceFactory SpaceInformation) → string →
  option (ModelBasedStateSpaceFactory SpaceInformation).

Local Abbreviation Impl :=
  (allocatePlannerImpl PlannerData_new new_planner allocatePersistingPlanner storage_load).
Local Abbreviation alloc :=
  (allocatePlanner PlannerData_new new_planner allocatePersistingPlanner storage_load).
Local Abbreviation step' :=
  (step PlannerData_new new_planner allocatePersistingPlanner storage_load).
Local Abbreviation run' :=
  (run PlannerData_new new_planner allocatePersistingPlanner storage_load).
Local Abbreviation constructed' :=
  (constructed PlannerData_new new_planner allocatePersistingPlanner storage_load).
Local Abbreviation outcome :=
  (allocatePlanner_outcome PlannerData_new new_planner allocatePersistingPlanner storage_load).
Local Abbreviation stored' := (stored (FS:=FS) storage_store).
Local Abbreviation context :=
  (getPlanningContext PlannerData_new new_planner allocatePersistingPlanner storage_load
     (double:=double) select_by_inspection).
Local Abbreviation factory_for :=
  (getStateSpaceFactory (double:=double) (PlannerType:=PlannerType) select_by_inspection).
Local Abbreviation faithful' := (faithful (FS:=FS) storage_store).
Local Abbreviation creations' :=
  (creations PlannerData_new new_planner allocatePersistingPlanner storage_load).
Local Abbreviation destroy := (destructor (FS:=FS) PlannerData_new storage_store).
Local Abbreviation init' :=
  (init (SpaceInformation:=SpaceInformation) (PlannerData:=PlannerData) (FS:=FS)).
Local Abbreviation World' := (World SpaceInformation PlannerData FS).
Local Abbreviation State' := (State SpaceInformation PlannerData FS).
Local Abbreviation MQ := "multi_query_planning_enabled".

Implicit Types (a : MultiQueryPlannerAllocator) (w : World') (st : State')
  (spec : ModelBasedPlanningContextSpecification) (cfg : Config)
  (o : Planner SpaceInformation PlannerData) (p : PlannerPtr).

(** ** The options as the code reads them *)

Lemma find_erase_bool_read key cfg :
  find_erase_bool key cfg = (b <- bool_option key cfg; Ok (b, delete key cfg)).
Proof.
  unfold find_erase_bool, bool_option.
  destruct (cfg !! key) eqn:E; [done|]. simpl. by rewrite delete_id.
Qed.

Lemma find_erase_string_read key cfg :
  find_erase_string key cfg = (string_option key cfg, delete key cfg).
Proof.
  unfold find_erase_string, string_option.
  destruct (cfg !! key) eqn:E; [done|]. simpl. by rewrite delete_id.
Qed.

Lemma bool_option_delete key key' cfg :
  key ≠ key' → bool_option key' (delete key cfg) = bool_option key' cfg.
Proof. intros. unfold bool_option. by rewrite lookup_delete_ne. Qed.

Lemma string_option_delete key key' cfg :
  key ≠ key' → string_option key' (delete key cfg) = string_option key' cfg.
Proof. intros. unfold string_option. by rewrite lookup_delete_ne. Qed.

(** ** Member calls on the newest object *)

Lemma arrow_last (h : list (Planner SpaceInformation PlannerData)) o (files : FS) f :
  arrow (Some (length h)) f (mkWorld (h ++ [o]) files)
  = Ok (mkWorld (h ++ [f o]) files).
Proof.
  unfold arrow, deref. simpl.
  rewrite (list_lookup_middle h [] o (length h) eq_refl). simpl.
  rewrite insert_app_r_alt by lia. by rewrite Nat.sub_diag.
Qed.

(** [allocatePlannerImpl] never throws: it returns a pointer to a new
    object at the end of the arena. *)
Lemma allocatePlannerImpl_result T si new_name spec load store path a w :
  Impl T si new_name spec load store path a w
  = Ok (Some (length (heap w)),
        (if store
         then mkAllocator (planners_ a)
                (<[new_name := path]> (planner_data_storage_paths_ a))
         else a),
        mkWorld (heap w ++ [configured si new_name spec
                              (constructed' T si load path (fs w))])
                (fs w)).
Proof.
  unfold allocatePlannerImpl, constructed, configured. destruct w as [h files]. simpl.
  assert (∀ o0,
    (w0 <- (if negb (new_name =? "")
            then arrow (Some (length h)) (setName new_name) (mkWorld (h ++ [o0]) files)
            else Ok (mkWorld (h ++ [o0]) files));
     w1 <- arrow (Some (length h)) (setParams (config_ spec) true) w0;
     w2 <- arrow (Some (length h)) (setProblemDefinition si) w1;
     w3 <- arrow (Some (length h)) setup w2;
     Ok (Some (length h),
         (if store
          then mkAllocator (planners_ a)
                 (<[new_name := path]> (planner_data_storage_paths_ a))
          else a), w3))
    = Ok (Some (length h),
          (if store
           then mkAllocator (planners_ a)
                  (<[new_name := path]> (planner_data_storage_paths_ a))
           else a),
          mkWorld (h ++ [setup (setProblemDefinition si (setParams (config_ spec) true
                     (if negb (new_name =? "") then setName new_name o0 else o0)))])
                  files)) as Hrest.
  { intros o0. destruct (negb (new_name =? "")); simpl;
      rewrite ?arrow_last; simpl; rewrite ?arrow_last; simpl;
      rewrite ?arrow_last; simpl; by rewrite ?arrow_last. }
  destruct load; simpl.
  - destruct (storage_load files path (PlannerData_new si)) as [flag data]. simpl.
    destruct (allocatePersistingPlanner T data) as [o0|]; simpl; apply Hrest.
  - apply Hrest.
Qed.

(** ** What a call of [allocatePlanner] does, in one equation *)

Lemma allocatePlanner_read T si new_name spec a w :
  alloc T si new_name spec a w = outcome T si new_name spec a w.
Proof.
  unfold allocatePlanner, allocatePlanner_outcome.
  rewrite find_erase_bool_read.
  destruct (bool_option MQ (config_ spec)) as [[|]|e]; simpl; [|by rewrite allocatePlannerImpl_result|done].
  destruct (planners_ a !! new_name) as [p|] eqn:Hp; [done|].
  rewrite find_erase_bool_read, bool_option_delete by done.
  destruct (bool_option "load_planner_data" (config_ spec)) as [load|e]; simpl; [|done].
  rewrite find_erase_bool_read, !bool_option_delete by done.
  destruct (bool_option "store_planner_data" (config_ spec)) as [store|e]; simpl; [|done].
  rewrite find_erase_string_read, !string_option_delete by done.
  rewrite allocatePlannerImpl_result. simpl.
  unfold map_index. destruct store; simpl; by rewrite lookup_insert_eq.
Qed.

(** ** The invariant of an allocator's histories *)

Lemma allocator_inv_init (fs0 : FS) : allocator_inv (init' fs0).
Proof. split; intros n x; simpl; by rewrite lookup_empty. Qed.

Lemma live_grow a (h : list (Planner SpaceInformation PlannerData)) (files : FS) o :
  live a (mkWorld h files) → live a (mkWorld (h ++ [o]) files).
Proof.
  intros Hl n p Hp. destruct (Hl n p Hp) as (l & o' & -> & Hlo & Hs).
  exists l, o'. simpl in *. split_and!; [done| |done].
  by apply lookup_app_l_Some.
Qed.

Lemma allocator_inv_allocate T si new_name spec a w p a' w' :
  allocator_inv (a, w) →
  alloc T si new_name spec a w = Ok (p, a', w') →
  allocator_inv (a', w').
Proof.
  intros [Hl Hr]. rewrite allocatePlanner_read. unfold allocatePlanner_outcome.
  destruct w as [h files]. simpl in *.
  destruct (bool_option MQ (config_ spec)) as [[|]|e]; simpl; [| |done].
  - destruct (planners_ a !! new_name) as [q|] eqn:Hq.
    { intros [= <- <- <-]. by split. }
    destruct (bool_option "load_planner_data" (config_ spec)) as [load|e]; simpl; [|done].
    destruct (bool_option "store_planner_data" (config_ spec)) as [store|e]; simpl; [|done].
    intros [= <- <- <-]. split; simpl.
    + intros n q. simpl. rewrite lookup_insert. case_decide as Hn.
      * intros [= <-]. eexists _, _. split_and!; [done| |].
        -- by apply (list_lookup_middle h []).
        -- done.
      * intros Hq'. by eapply (live_grow a h files), Hq'.
    + intros n path. simpl. rewrite (lookup_insert (planners_ a)).
      case_decide as Hn; [by eauto|].
      destruct store; [rewrite lookup_insert_ne by done|]; apply Hr.
  - intros [= <- <- <-]. split; simpl; [by apply live_grow|done].
Qed.

Lemma allocator_inv_step st e : allocator_inv st → allocator_inv (step' st e).
Proof.
  destruct st as [a w]. intros Hinv. destruct e as [T si n spec|l d]; simpl.
  - destruct (alloc T si n spec a w) as [[[p a'] w']|e] eqn:E; [|done].
    by eapply allocator_inv_allocate.
  - destruct Hinv as [Hl Hr]. split; [|done].
    intros n p Hp. destruct (Hl n p Hp) as (l0 & o & -> & Hlo & Hs). simpl in *.
    destruct (decide (l = l0)) as [->|Hne].
    + exists l0, (set_graph d o). split_and!; [done| |done].
      by rewrite list_lookup_alter_eq, Hlo.
    + exists l0, o. split_and!; [done| |done].
      by rewrite list_lookup_alter_ne.
Qed.

Lemma allocator_inv_run es : ∀ st, allocator_inv st → allocator_inv (run' st es).
Proof.
  induction es as [|e es IH]; intros st Hinv; [done|].
  apply IH, allocator_inv_step, Hinv.
Qed.

Lemma reachable_inv (fs0 : FS) es : allocator_inv (run' (init' fs0) es).
Proof. apply allocator_inv_run, allocator_inv_init. Qed.

(** ** Entries of [planners_] stay *)

Lemma step_planners st e n :
  planners_ (step' st e).1 !! n = planners_ st.1 !! n
  ∨ planners_ st.1 !! n = None ∧ is_Some (planners_ (step' st e).1 !! n).
Proof.
  destruct st as [a w]. destruct e as [T si m spec|l d]; simpl; [|by left].
  rewrite allocatePlanner_read. unfold allocatePlanner_outcome.
  destruct (bool_option MQ (config_ spec)) as [[|]|e]; simpl; [| by left..].
  destruct (planners_ a !! m) as [q|] eqn:Hq; [by left|].
  destruct (bool_option "load_planner_data" (config_ spec)) as [load|e]; simpl; [|by left].
  destruct (bool_option "store_planner_data" (config_ spec)) as [store|e]; simpl; [|by left].
  rewrite lookup_insert. case_decide as Hn; [subst m; right; eauto|by left].
Qed.

Lemma step_planners_stable st e n p :
  planners_ st.1 !! n = Some p → planners_ (step' st e).1 !! n = Some p.
Proof.
  intros Hp. destruct (step_planners st e n) as [->|[Hnone _]]; congruence.
Qed.

Lemma run_planners_stable es : ∀ st n p,
  planners_ st.1 !! n = Some p → planners_ (run' st es).1 !! n = Some p.
Proof.
  induction es as [|e es IH]; intros st n p Hp; [done|].
  by apply IH, step_planners_stable.
Qed.

Lemma bool_option_Throw key cfg e :
  bool_option key cfg = Throw e ↔ unparsable key cfg ∧ e = bad_lexical_cast.
Proof.
  unfold bool_option, unparsable, lexical_cast. split.
  - destruct (cfg !! key) as [v|]; [|done].
    destruct (lexical_cast_bool v) eqn:E; [done|]. intros [= <-]. eauto.
  - intros [(v & -> & ->) ->]. done.
Qed.

Lemma unparsable_Throw key cfg :
  unparsable key cfg → bool_option key cfg = Throw bad_lexical_cast.
Proof. intros H. by apply bool_option_Throw. Qed.

Ltac unparsable_clash :=
  repeat match goal with
         | H : unparsable _ _ |- _ => apply unparsable_Throw in H
         end;
  congruence.

(** ** Multi-query allocation *)

Lemma allocatePlanner_enabled_caches T si new_name spec a w p a1 w1 :
  bool_option MQ (config_ spec) = Ok true →
  alloc T si new_name spec a w = Ok (p, a1, w1) →
  planners_ a1 !! new_name = Some p.
Proof.
  intros Hmq. rewrite allocatePlanner_read. unfold allocatePlanner_outcome.
  rewrite Hmq. simpl.
  destruct (planners_ a !! new_name) as [q|] eqn:Hq; [by intros [= <- <- <-]|].
  destruct (bool_option "load_planner_data" (config_ spec)); simpl; [|done].
  destruct (bool_option "store_planner_data" (config_ spec)); simpl; [|done].
  intros [= <- <- <-]. simpl. by rewrite lookup_insert_eq.
Qed.

Lemma allocatePlanner_hit T si new_name spec a w p :
  bool_option MQ (config_ spec) = Ok true →
  planners_ a !! new_name = Some p →
  alloc T si new_name spec a w = Ok (p, a, w).
Proof.
  intros Hmq Hp. rewrite allocatePlanner_read. unfold allocatePlanner_outcome.
  by rewrite Hmq, Hp.
Qed.

(** C1, as the code has it: when a call with multi-query planning
    enabled has returned an instance for a name, a later call of
    [allocatePlanner] with that name whose own options enable
    multi-query planning too returns the very pointer the first call
    returned, whatever planner type, space and other options it passes
    and whatever happened in between; it changes neither the allocator
    nor any object. *)
Theorem allocatePlanner_cached_instance
    T si new_name spec a w p a1 w1 es T' si' spec' :
  bool_option MQ (config_ spec) = Ok true →
  alloc T si new_name spec a w = Ok (p, a1, w1) →
  bool_option MQ (config_ spec') = Ok true →
  alloc T' si' new_name spec' (run' (a1, w1) es).1 (run' (a1, w1) es).2
  = Ok (p, (run' (a1, w1) es).1, (run' (a1, w1) es).2).
Proof.
  intros Hmq Hfirst Hmq'.
  apply allocatePlanner_hit; [done|].
  apply run_planners_stable. simpl.
  eapply allocatePlanner_enabled_caches; [exact Hmq|exact Hfirst].
Qed.

(** ** Single-shot allocation *)

(** C3: when [multi_query_planning_enabled] is absent or false, a call
    of [allocatePlanner] on an allocator with any history returns a
    pointer to an object that did not exist before, leaves both maps of
    the allocator as they were, no entry of [planners_] points to the
    new object, and a second such call returns a different pointer. *)
Theorem allocatePlanner_single_shot fs0 es st T si new_name spec :
  st = run' (init' fs0) es →
  bool_option MQ (config_ spec) = Ok false →
  ∃ l w1,
    alloc T si new_name spec st.1 st.2 = Ok (Some l, st.1, w1)
    ∧ heap st.2 !! l = None
    ∧ is_Some (heap w1 !! l)
    ∧ (∀ n, planners_ st.1 !! n ≠ Some (Some l))
    ∧ ∀ T' si' spec',
        bool_option MQ (config_ spec') = Ok false →
        ∃ l' w2,
          alloc T' si' new_name spec' st.1 w1 = Ok (Some l', st.1, w2)
          ∧ l' ≠ l.
Proof.
  intros -> Hmq. pose proof (reachable_inv fs0 es) as [Hl _].
  destruct (run' (init' fs0) es) as [a [h files]]. simpl in *.
  eexists _, _. split_and!.
  - rewrite allocatePlanner_read. unfold allocatePlanner_outcome.
    by rewrite Hmq.
  - by apply lookup_ge_None.
  - simpl. eexists. by apply (list_lookup_middle h []).
  - intros n Hn. destruct (Hl n _ Hn) as (l & o & [= <-] & Hlo & _).
    simpl in Hlo. apply lookup_lt_Some in Hlo. lia.
  - intros T' si' spec' Hmq'. eexists _, _. split.
    + rewrite allocatePlanner_read. unfold allocatePlanner_outcome.
      by rewrite Hmq'.
    + simpl. rewrite length_app. simpl. lia.
Qed.

(** ** Creation of cached entries *)

Lemma creations_cached es : ∀ st n p,
  planners_ st.1 !! n = Some p → creations' n st es = 0.
Proof.
  induction es as [|e es IH]; intros st n p Hp; [done|]. simpl.
  pose proof (step_planners_stable st e n p Hp) as Hp'.
  rewrite (IH _ _ _ Hp'). rewrite decide_True by congruence. done.
Qed.

(** C6: along any history of calls on one allocator the entry of a name
    in [planners_] changes at most once, and a name that is present
    keeps its pointer for the rest of the history and is never created
    again. *)
Theorem cached_entry_created_once st es n :
  (creations PlannerData_new new_planner allocatePersistingPlanner storage_load
     n st es ≤ 1)%nat
  ∧ ∀ p, planners_ st.1 !! n = Some p →
      planners_ (run PlannerData_new new_planner allocatePersistingPlanner
                   storage_load st es).1 !! n = Some p
      ∧ creations PlannerData_new new_planner allocatePersistingPlanner
          storage_load n st es = 0.
Proof.
  split.
  - revert st. induction es as [|e es IH]; intros st; simpl; [lia|].
    destruct (step_planners st e n) as [Heq|[Hnone [q Hq]]].
    + rewrite decide_True by done. apply IH.
    + rewrite (creations_cached es _ _ _ Hq). case_decide; lia.
  - intros p Hp. split; [by apply run_planners_stable|by eapply creations_cached].
Qed.

(** ** What the new instance is *)

(** A constructing call hands [spec.config_] itself to [setParams]: the
    erasures were made on the local copy [cfg] only. *)
Lemma allocatePlanner_params T si new_name spec a w p a' w' :
  bool_option MQ (config_ spec) = Ok false ∨ planners_ a !! new_name = None →
  alloc T si new_name spec a w = Ok (p, a', w') →
  ∃ l o, p = Some l ∧ heap w' !! l = Some o
         ∧ params_ o = Some (config_ spec, true).
Proof.
  intros Hnew. rewrite allocatePlanner_read. unfold allocatePlanner_outcome.
  destruct (bool_option MQ (config_ spec)) as [[|]|e] eqn:Hmq; simpl; [| |done].
  - destruct Hnew as [[=]| ->].
    destruct (bool_option "load_planner_data" (config_ spec)); simpl; [|done].
    destruct (bool_option "store_planner_data" (config_ spec)); simpl; [|done].
    intros [= <- <- <-]. eexists _, _. simpl.
    split_and!; [done|by apply (list_lookup_middle (heap w) [])|reflexivity].
  - intros [= <- <- <-]. eexists _, _. simpl.
    split_and!; [done|by apply (list_lookup_middle (heap w) [])|reflexivity].
Qed.

(** C10: on an allocator with any history [allocatePlanner] never
    dereferences an empty pointer, and the pointer it returns is not
    empty and points to an object on which [setup] was run; when
    [allocatePersistingPlanner] yields no planner, [allocatePlannerImpl]
    builds the instance with [new T(si)]. *)
Theorem allocatePlanner_never_null fs0 es st T si new_name spec :
  st = run' (init' fs0) es →
  alloc T si new_name spec st.1 st.2 ≠ Throw null_dereference
  ∧ (∀ p a' w', alloc T si new_name spec st.1 st.2 = Ok (p, a', w') →
       ∃ l o, p = Some l ∧ heap w' !! l = Some o ∧ setup_ o = true)
  ∧ (∀ store path a w,
       allocatePersistingPlanner T
         (storage_load (fs w) path (PlannerData_new si)).2 = None →
       ∃ a', Impl T si new_name spec true store path a w
             = Ok (Some (length (heap w)), a',
                   mkWorld (heap w ++ [configured si new_name spec (new_planner T si)])
                           (fs w))).
Proof.
  intros ->. pose proof (reachable_inv fs0 es) as Hinv.
  destruct (run' (init' fs0) es) as [a w]. simpl. split_and!.
  - rewrite allocatePlanner_read. unfold allocatePlanner_outcome.
    destruct (bool_option MQ (config_ spec)) as [[|]|e] eqn:Hmq; simpl; [|done|].
    + destruct (planners_ a !! new_name); [done|].
      destruct (bool_option "load_planner_data" (config_ spec)) as [?|e] eqn:E1;
        simpl; [|by apply bool_option_Throw in E1 as [_ ->]].
      destruct (bool_option "store_planner_data" (config_ spec)) as [?|e] eqn:E2;
        simpl; [done|by apply bool_option_Throw in E2 as [_ ->]].
    + by apply bool_option_Throw in Hmq as [_ ->].
  - intros p a' w' Hcall.
    destruct (allocator_inv_allocate _ _ _ _ _ _ _ _ _ Hinv Hcall) as [Hl' _].
    destruct (bool_option MQ (config_ spec)) as [[|]|e] eqn:Hmq.
    + apply (Hl' new_name). simpl.
      eapply allocatePlanner_enabled_caches; [exact Hmq|exact Hcall].
    + revert Hcall. rewrite allocatePlanner_read. unfold allocatePlanner_outcome.
      rewrite Hmq. simpl. intros [= <- <- <-]. eexists _, _. simpl.
      split_and!; [done|by apply (list_lookup_middle (heap w) [])|reflexivity].
    + revert Hcall. rewrite allocatePlanner_read. unfold allocatePlanner_outcome.
      by rewrite Hmq.
  - intros store path a0 w0 Hnone. eexists.
    rewrite allocatePlannerImpl_result. unfold constructed. by rewrite Hnone.
Qed.


(** ** When a call throws *)

(** C9, as the code has it: [allocatePlanner] throws exactly when
    [multi_query_planning_enabled] is present with a value
    [lexical_cast<bool>] rejects, or when multi-query planning is
    enabled, the name is not cached yet, and [load_planner_data] or
    [store_planner_data] is present with such a value; what it throws is
    [bad_lexical_cast]; and [lexical_cast<bool>] accepts the strings 1
    and 0 and rejects the words true and false. *)
Theorem allocatePlanner_throws_iff T si new_name spec a w :
  ((∃ e, alloc T si new_name spec a w = Throw e) ↔
     unparsable MQ (config_ spec)
     ∨ (bool_option MQ (config_ spec) = Ok true
        ∧ planners_ a !! new_name = None
        ∧ (unparsable "load_planner_data" (config_ spec)
           ∨ unparsable "store_planner_data" (config_ spec))))
  ∧ (∀ e, alloc T si new_name spec a w = Throw e → e = bad_lexical_cast)
  ∧ lexical_cast_bool "1" = Some true ∧ lexical_cast_bool "0" = Some false
  ∧ lexical_cast_bool "true" = None ∧ lexical_cast_bool "false" = None.
Proof.
  split_and!; [| |done..].
  - rewrite allocatePlanner_read. unfold allocatePlanner_outcome.
    destruct (bool_option MQ (config_ spec)) as [[|]|e] eqn:Hmq; simpl.
    + destruct (planners_ a !! new_name) as [q|] eqn:Hq.
      { split; [by intros [e [=]]|]. intros [H|(_ & [=] & _)]. unparsable_clash. }
      destruct (bool_option "load_planner_data" (config_ spec)) as [load|e] eqn:E1; simpl.
      * destruct (bool_option "store_planner_data" (config_ spec)) as [store|e] eqn:E2; simpl.
        -- split; [by intros [e [=]]|].
           intros [H|(_ & _ & [H|H])]; unparsable_clash.
        -- split; [|by eauto]. intros _. right. split_and!; [done..|].
           right. by apply bool_option_Throw in E2 as [? _].
      * split; [|by eauto]. intros _. right. split_and!; [done..|].
        left. by apply bool_option_Throw in E1 as [? _].
    + split; [by intros [e [=]]|]. intros [H|([=] & _)]. unparsable_clash.
    + split; [|by eauto]. intros _. left. by apply bool_option_Throw in Hmq as [? _].
  - intros e. rewrite allocatePlanner_read. unfold allocatePlanner_outcome.
    destruct (bool_option MQ (config_ spec)) as [[|]|e'] eqn:Hmq; simpl; [|done|].
    + destruct (planners_ a !! new_name); [done|].
      destruct (bool_option "load_planner_data" (config_ spec)) as [?|e1] eqn:E1;
        simpl; [|apply bool_option_Throw in E1 as [_ ->]; congruence].
      destruct (bool_option "store_planner_data" (config_ spec)) as [?|e2] eqn:E2;
        simpl; [done|apply bool_option_Throw in E2 as [_ ->]; congruence].
    + apply bool_option_Throw in Hmq as [_ ->]. congruence.
Qed.

(** ** The destructor *)

Lemma elem_of_entries {V} (m : gmap string V) n v :
  (n, v) ∈ entries m ↔ m !! n = Some v.
Proof.
  unfold entries. rewrite merge_sort_Permutation. apply elem_of_map_to_list.
Qed.

#[local] Instance key_le_total {V} : Total (@key_le V).
Proof.
  intros x y. unfold key_le.
  destruct (String.leb_total x.1 y.1) as [H|H]; rewrite H; [by left|by right].
Qed.

Lemma entries_sorted {V} (m : gmap string V) : Sorted key_le (entries m).
Proof. apply Sorted_merge_sort, _. Qed.

Lemma store_entry_cached (planners : gmap string PlannerPtr) w log e l o :
  planners !! e.1 = Some (Some l) →
  heap w !! l = Some o →
  store_entry PlannerData_new storage_store (Ok (planners, w, log)) e
  = Ok (planners,
        mkWorld (heap w) (storage_store (fs w) (graph_ o) e.2).2,
        (log ++ [mkAttempt e.2 (graph_ o) (storage_store (fs w) (graph_ o) e.2).1])%list).
Proof.
  intros Hp Hlo. unfold store_entry, bind, map_index, deref, getPlannerData.
  rewrite Hp, Hlo. cbn. rewrite Hp. cbn. rewrite Hlo. cbn.
  by destruct (storage_store (fs w) (graph_ o) e.2).
Qed.

Lemma foldl_store_entry es : ∀ (planners : gmap string PlannerPtr) w log,
  (∀ e, e ∈ es → ∃ l o, planners !! e.1 = Some (Some l) ∧ heap w !! l = Some o) →
  ∃ log',
    foldl (store_entry PlannerData_new storage_store) (Ok (planners, w, log)) es
    = Ok (planners, mkWorld (heap w) (stored' (fs w) log'), (log ++ log')%list)
    ∧ Forall2 (attempt_of planners (heap w)) es log'.
Proof.
  induction es as [|e es IH]; intros planners w log Hes.
  - exists []. unfold stored. simpl. rewrite app_nil_r. by destruct w.
  - destruct (Hes e) as (l & o & Hp & Hlo); [by left|].
    cbn [foldl]. rewrite (store_entry_cached _ _ _ _ _ _ Hp Hlo).
    set (r := storage_store (fs w) (graph_ o) e.2).
    destruct (IH planners (mkWorld (heap w) r.2)
                (log ++ [mkAttempt e.2 (graph_ o) r.1])%list)
      as (log' & Hfold & Hall).
    { intros e' He'. apply Hes. by right. }
    exists (mkAttempt e.2 (graph_ o) r.1 :: log'). split.
    + rewrite Hfold. simpl. by rewrite <- app_assoc.
    + constructor; [|done]. split; [done|]. exists l, o. by split_and!.
Qed.

(** C4: the destructor of an allocator with any history returns
    normally, and it calls [storage_.store] once for every entry of
    [planner_data_storage_paths_], in key order, each time with the
    entry's path and the graph the cached instance of that name holds at
    that moment, whatever the earlier calls returned; the storage
    afterwards is the result of these calls made one after the other. *)
Theorem destructor_stores_every_entry fs0 es st :
  st = run' (init' fs0) es →
  ∃ log,
    destroy st.1 st.2 = Ok (mkWorld (heap st.2) (stored' (fs st.2) log), log)
    ∧ Forall2 (attempt_of (planners_ st.1) (heap st.2))
        (entries (planner_data_storage_paths_ st.1)) log
    ∧ ∀ n path, planner_data_storage_paths_ st.1 !! n = Some path →
        ∃ l o ok, planners_ st.1 !! n = Some (Some l) ∧ heap st.2 !! l = Some o
                  ∧ mkAttempt path (graph_ o) ok ∈ log.
Proof.
  intros ->. pose proof (reachable_inv fs0 es) as [Hl Hr].
  destruct (run' (init' fs0) es) as [a w]. simpl in *.
  destruct (foldl_store_entry (entries (planner_data_storage_paths_ a))
              (planners_ a) w []) as (log & Hfold & Hall).
  { intros [n path] He. apply elem_of_entries in He. simpl.
    destruct (Hr n path He) as [p Hp].
    destruct (Hl n p Hp) as (l & o & -> & Hlo & _). eauto. }
  exists log. split_and!; [|done|].
  - unfold destructor. by rewrite Hfold.
  - intros n path Hn. apply elem_of_entries, list_elem_of_lookup in Hn as [i Hi].
    destruct (Forall2_lookup_l _ _ _ _ _ Hall Hi) as ([path' data ok] & Hatt & Hp & l & o & Hc & Hlo & Hd).
    simpl in *. subst. exists l, o, ok. split_and!; [done..|].
    by eapply list_elem_of_lookup_2.
Qed.

(** ** The planning-context cache *)

Implicit Types (m : PlanningContextManager PlannerType SpaceInformation double)
  (mem : Memory SpaceInformation PlannerData FS double).

Lemma cache_wf_getPlanningContext config_name factory_type m mem c m1 mem1 :
  cache_wf m mem →
  context config_name factory_type m mem = inr (c, m1, mem1) →
  cache_wf m1 mem1.
Proof.
  unfold getPlanningContext, cache_wf. intros Hwf.
  destruct (planner_configs_ m !! config_name) as [pc|]; [|done].
  destruct (factory_for (group pc) factory_type m) as [e|factory]; [done|].
  destruct (cached_contexts_ m !! _) as [c0|] eqn:Hc; [by intros [= <- <- <-]|].
  destruct (config pc !! "type" ≫= _) as [T|]; [|done].
  destruct (allocatePlanner _ _ _ _ _ _ _ _ _ _) as [[[p a] w]|e]; [|done].
  intros [= <- <- <-]. simpl. apply map_Forall_insert_2.
  - rewrite length_app. simpl. lia.
  - eapply map_Forall_impl; [exact Hwf|]. intros k c0 Hlt. simpl in Hlt.
    rewrite length_app. simpl. lia.
Qed.

(** C7: when [getPlanningContext(config, factory_type)] returns a
    context, the same call on the manager as that call left it returns
    the same context pointer and changes nothing: no second context is
    built. *)
Theorem getPlanningContext_twice config_name factory_type m mem c m1 mem1 :
  context config_name factory_type m mem = inr (c, m1, mem1) →
  context config_name factory_type m1 mem1 = inr (c, m1, mem1).
Proof.
  unfold getPlanningContext.
  destruct (planner_configs_ m !! config_name) as [pc|] eqn:Hpc; [|done].
  destruct (factory_for (group pc) factory_type m) as [e|factory] eqn:Hf; [done|].
  destruct (cached_contexts_ m !! _) as [c0|] eqn:Hc.
  { intros [= <- <- <-]. by rewrite Hpc, Hf, Hc. }
  destruct (config pc !! "type" ≫= _) as [T|]; [|done].
  destruct (allocatePlanner _ _ _ _ _ _ _ _ _ _) as [[[p a] w]|e]; [|done].
  intros [= <- <- <-]. simpl. rewrite Hpc.
  unfold getStateSpaceFactory in *. simpl. rewrite Hf. simpl.
  by rewrite lookup_insert_eq.
Qed.

(** C8: [setPlannerConfigurations] installs the new configuration set
    and empties the cache; the next [getPlanningContext] that succeeds,
    for whatever key, returns a pointer to a context built by that call,
    at an address that held no context before and that differs from every
    pointer cached before the replacement. *)
Theorem setPlannerConfigurations_invalidates
    pconfig config_name factory_type m mem c m2 mem2 :
  cache_wf m mem →
  context config_name factory_type (setPlannerConfigurations pconfig m) mem
  = inr (c, m2, mem2) →
  planner_configs_ (setPlannerConfigurations pconfig m) = pconfig
  ∧ cached_contexts_ (setPlannerConfigurations pconfig m) = ∅
  ∧ contexts mem !! c = None
  ∧ is_Some (contexts mem2 !! c)
  ∧ ∀ key old, cached_contexts_ m !! key = Some old → c ≠ old.
Proof.
  intros Hwf. unfold getPlanningContext. simpl.
  destruct (pconfig !! config_name) as [pc|]; [|done].
  destruct (factory_for (group pc) factory_type _) as [e|factory]; [done|].
  rewrite lookup_empty.
  destruct (config pc !! "type" ≫= _) as [T|]; [|done].
  destruct (allocatePlanner _ _ _ _ _ _ _ _ _ _) as [[[p a] w]|e]; [|done].
  intros [= <- <- <-]. simpl. split_and!; [done..| | |].
  - by apply lookup_ge_None.
  - eexists. by apply (list_lookup_middle (contexts mem) []).
  - intros key old Hold Heq. apply Hwf in Hold. simpl in Hold. lia.
Qed.

(** * Further properties of the allocator *)

Local Abbreviation paths_ := planner_data_storage_paths_.

Lemma run_snoc st es e : run' st (es ++ [e]) = step' (run' st es) e.
Proof. unfold run. by rewrite foldl_app. Qed.

(** ** What a call leaves alone *)

(** X1: a call of [allocatePlanner] on an allocator with any history
    never writes to the storage, keeps every object of the arena as it
    is and adds at most one, and only adds entries to the two maps of
    the allocator. *)
Theorem allocatePlanner_frame fs0 es st T si new_name spec p a' w' :
  st = run PlannerData_new new_planner allocatePersistingPlanner storage_load
         (init fs0) es →
  alloc T si new_name spec st.1 st.2 = Ok (p, a', w') →
  fs w' = fs st.2
  ∧ heap st.2 `prefix_of` heap w'
  ∧ (length (heap w') ≤ S (length (heap st.2)))%nat
  ∧ planners_ st.1 ⊆ planners_ a'
  ∧ planner_data_storage_paths_ st.1 ⊆ planner_data_storage_paths_ a'.
Proof.
  intros ->. pose proof (reachable_inv fs0 es) as [_ Hr].
  destruct (run' (init' fs0) es) as [a w]. simpl in *.
  rewrite allocatePlanner_read. unfold allocatePlanner_outcome.
  destruct (bool_option MQ (config_ spec)) as [[|]|e]; simpl; [| |done].
  - destruct (planners_ a !! new_name) as [q|] eqn:Hq.
    { intros [= <- <- <-]. split_and!; [done|done|lia|done|done]. }
    destruct (bool_option "load_planner_data" (config_ spec)); simpl; [|done].
    destruct (bool_option "store_planner_data" (config_ spec)) as [store|]; simpl; [|done].
    intros [= <- <- <-]. simpl. split_and!.
    + done.
    + by apply prefix_app_r.
    + rewrite length_app. simpl. lia.
    + by apply insert_subseteq.
    + destruct store; [|done]. apply insert_subseteq.
      destruct (paths_ a !! new_name) as [path|] eqn:Hpath; [|done].
      destruct (Hr _ _ Hpath) as [q' Hq']. congruence.
  - intros [= <- <- <-]. simpl. split_and!; [done| | |done|done].
    + by apply prefix_app_r.
    + rewrite length_app. simpl. lia.
Qed.

(** ** Storage paths *)

Lemma step_paths_cached st e n p :
  planners_ st.1 !! n = Some p →
  paths_ (step' st e).1 !! n = paths_ st.1 !! n.
Proof.
  destruct st as [a w]. intros Hp. destruct e as [T si m spec|l d]; simpl in *; [|done].
  rewrite allocatePlanner_read. unfold allocatePlanner_outcome.
  destruct (bool_option MQ (config_ spec)) as [[|]|e]; simpl; [|done..].
  destruct (planners_ a !! m) as [q|] eqn:Hq; [done|].
  destruct (bool_option "load_planner_data" (config_ spec)); simpl; [|done].
  destruct (bool_option "store_planner_data" (config_ spec)) as [[|]|]; simpl; [|done..].
  apply lookup_insert_ne. congruence.
Qed.

(** X2: once a name is cached, its entry in
    [planner_data_storage_paths_] never changes: a name cached with a
    path keeps that path, and a name cached without one never gets one,
    whatever later calls ask for. *)
Theorem storage_path_fixed_at_creation st es n p :
  planners_ st.1 !! n = Some p →
  planner_data_storage_paths_
    (run PlannerData_new new_planner allocatePersistingPlanner storage_load st es).1 !! n
  = planner_data_storage_paths_ st.1 !! n.
Proof.
  revert st. induction es as [|e es IH]; intros st Hp; [done|]. simpl.
  rewrite (IH (step' st e)) by by apply step_planners_stable.
  by eapply step_paths_cached.
Qed.

(** ** Cached instances *)

(** X3: on an allocator with any history two different names are never
    cached with the same pointer. *)
Theorem cached_instances_distinct fs0 es st n1 n2 p1 p2 :
  st = run PlannerData_new new_planner allocatePersistingPlanner storage_load
         (init fs0) es →
  n1 ≠ n2 →
  planners_ st.1 !! n1 = Some p1 →
  planners_ st.1 !! n2 = Some p2 →
  p1 ≠ p2.
Proof.
  intros ->. revert n1 n2 p1 p2.
  induction es as [|e es IH] using rev_ind; intros n1 n2 p1 p2 Hne.
  { simpl. by rewrite lookup_empty. }
  rewrite run_snoc. pose proof (reachable_inv fs0 es) as [Hl _].
  destruct (run' (init' fs0) es) as [a w]. simpl in *.
  destruct e as [T si m spec|l d]; simpl; [|by apply IH].
  rewrite allocatePlanner_read. unfold allocatePlanner_outcome.
  destruct (bool_option MQ (config_ spec)) as [[|]|e]; simpl; [|by apply IH..].
  destruct (planners_ a !! m) as [q|] eqn:Hq; [by apply IH|].
  destruct (bool_option "load_planner_data" (config_ spec)); simpl; [|by apply IH].
  destruct (bool_option "store_planner_data" (config_ spec)); simpl; [|by apply IH].
  assert (∀ n p, planners_ a !! n = Some p → p ≠ Some (length (heap w))) as Hold.
  { intros n p Hp ->. destruct (Hl _ _ Hp) as (l & o & [= <-] & Hlo & _).
    apply lookup_lt_Some in Hlo. lia. }
  rewrite !lookup_insert. repeat case_decide; subst.
  - done.
  - intros [= <-] Hp2 <-. by eapply Hold.
  - intros Hp1 [= <-] ->. by eapply Hold.
  - by apply IH.
Qed.

(** X4: on an allocator with any history the instance cached under a
    non-empty name carries that name; and a single-shot call with the
    empty name leaves the new instance the name its constructor gave
    it. *)
Theorem cached_instance_named fs0 es st :
  st = run PlannerData_new new_planner allocatePersistingPlanner storage_load
         (init fs0) es →
  (∀ n l o, planners_ st.1 !! n = Some (Some l) → heap st.2 !! l = Some o →
     n ≠ "" → name_ o = n)
  ∧ ∀ T si spec l a' w' o,
      bool_option MQ (config_ spec) = Ok false →
      alloc T si "" spec st.1 st.2 = Ok (Some l, a', w') →
      heap w' !! l = Some o →
      name_ o = name_ (new_planner T si).
Proof.
  intros ->. split.
  - induction es as [|e es IH] using rev_ind; intros n l o.
    { simpl. by rewrite lookup_empty. }
    rewrite run_snoc. pose proof (reachable_inv fs0 es) as [Hl _].
    destruct (run' (init' fs0) es) as [a w]. simpl in *.
    assert (∀ x, planners_ a !! n = Some (Some l) →
              (heap w ++ [x])%list !! l = Some o → n ≠ "" → name_ o = n) as Hgrow.
    { intros x Hp Hlo. destruct (Hl _ _ Hp) as (l' & o' & [= <-] & Hlo' & _).
      rewrite (lookup_app_l_Some _ _ _ _ Hlo') in Hlo. injection Hlo as <-.
      by apply (IH n l). }
    destruct e as [T si m spec|l0 d]; simpl.
    + rewrite allocatePlanner_read. unfold allocatePlanner_outcome.
      destruct (bool_option MQ (config_ spec)) as [[|]|e]; simpl; [|by apply Hgrow|by apply IH].
      destruct (planners_ a !! m) as [q|] eqn:Hq; [by apply IH|].
      destruct (bool_option "load_planner_data" (config_ spec)); simpl; [|by apply IH].
      destruct (bool_option "store_planner_data" (config_ spec)); simpl; [|by apply IH].
      rewrite lookup_insert. case_decide as Hm; [|by apply Hgrow].
      subst m. intros [= <-]. rewrite (list_lookup_middle (heap w) [] _ _ eq_refl).
      intros [= <-] Hn. unfold configured. simpl.
      apply String.eqb_neq in Hn. by rewrite Hn.
    + intros Hp Hlo Hn. destruct (decide (l0 = l)) as [->|Hne].
      * rewrite list_lookup_alter_eq in Hlo.
        destruct (heap w !! l) as [o'|] eqn:Hlo'; [|done].
        injection Hlo as <-. simpl. by eapply IH.
      * rewrite list_lookup_alter_ne in Hlo by done. by eapply IH.
  - intros T si spec l a' w' o Hmq.
    rewrite allocatePlanner_read. unfold allocatePlanner_outcome. rewrite Hmq. simpl.
    intros [= <- <- <-]. simpl.
    rewrite (list_lookup_middle (heap (run' (init' fs0) es).2) [] _ _ eq_refl).
    by intros [= <-].
Qed.

(** ** The storage over a lifetime *)

Lemma step_fs st e : fs (step' st e).2 = fs st.2.
Proof.
  destruct st as [a w]. destruct e as [T si m spec|l d]; simpl; [|done].
  rewrite allocatePlanner_read. unfold allocatePlanner_outcome.
  destruct (bool_option MQ (config_ spec)) as [[|]|e]; simpl; [|done..].
  destruct (planners_ a !! m) as [q|]; [done|].
  destruct (bool_option "load_planner_data" (config_ spec)); simpl; [|done].
  by destruct (bool_option "store_planner_data" (config_ spec)).
Qed.

(** X5: calls of [allocatePlanner] and the callers' work never write to
    the storage; and when no call of a history asked for
    [store_planner_data], no storage path is registered and the
    destructor makes no call of [storage_.store] either, so the storage
    is after the destructor what it was when the allocator was
    constructed. *)
Theorem storage_untouched_without_store fs0 es st :
  st = run PlannerData_new new_planner allocatePersistingPlanner storage_load
         (init fs0) es →
  fs st.2 = fs0
  ∧ ((∀ T si n spec, Allocate T si n spec ∈ es →
        bool_option "store_planner_data" (config_ spec) ≠ Ok true) →
     planner_data_storage_paths_ st.1 = ∅
     ∧ destroy st.1 st.2 = Ok (st.2, [])).
Proof.
  intros ->. split.
  - induction es as [|e es IH] using rev_ind; [done|].
    by rewrite run_snoc, step_fs.
  - intros Hes.
    assert (paths_ (run' (init' fs0) es).1 = ∅) as Hempty.
    { induction es as [|e es IH] using rev_ind; [done|].
      rewrite run_snoc.
      assert (paths_ (run' (init' fs0) es).1 = ∅) as IH'.
      { apply IH. intros T si n spec Hin. apply (Hes T si n spec).
        apply elem_of_app. by left. }
      destruct (run' (init' fs0) es) as [a w]. simpl in *.
      destruct e as [T si m spec|l d]; simpl; [|done].
      rewrite allocatePlanner_read. unfold allocatePlanner_outcome.
      destruct (bool_option MQ (config_ spec)) as [[|]|e]; simpl; [|done..].
      destruct (planners_ a !! m) as [q|]; [done|].
      destruct (bool_option "load_planner_data" (config_ spec)); simpl; [|done].
      destruct (bool_option "store_planner_data" (config_ spec)) as [[|]|] eqn:Hst;
        simpl; [|done..].
      exfalso. apply (Hes T si m spec); [|done].
      apply elem_of_app. right. by apply list_elem_of_singleton. }
    split; [done|].
    unfold destructor. rewrite Hempty. unfold entries. rewrite map_to_list_empty.
    simpl. by destruct (run' (init' fs0) es).2.
Qed.

(** ** From one allocator's destructor to the next allocator's load *)

Lemma stored_app (files : FS) (l1 l2 : list (StoreAttempt PlannerData)) :
  stored' files (l1 ++ l2)%list = stored' (stored' files l1) l2.
Proof. unfold stored. by rewrite foldl_app. Qed.

Lemma faithful_app (l1 l2 : list (StoreAttempt PlannerData)) : ∀ files : FS,
  faithful' files (l1 ++ l2)%list
  ↔ faithful' files l1 ∧ faithful' (stored' files l1) l2.
Proof.
  induction l1 as [|att l1 IH]; intros files; simpl.
  - split; [by intros H; split|by intros [_ H]].
  - rewrite IH. unfold stored. simpl. split.
    + intros (H1 & H2 & H3). by split_and!.
    + intros ((H1 & H2) & H3). by split_and!.
Qed.

Lemma foldl_store_entry_faithful es : ∀ (planners : gmap string PlannerPtr) w log,
  (∀ e, e ∈ es → ∃ l o, planners !! e.1 = Some (Some l) ∧ heap w !! l = Some o) →
  ∃ log',
    foldl (store_entry PlannerData_new storage_store) (Ok (planners, w, log)) es
    = Ok (planners, mkWorld (heap w) (stored' (fs w) log'), (log ++ log')%list)
    ∧ Forall2 (attempt_of planners (heap w)) es log'
    ∧ faithful' (fs w) log'.
Proof.
  induction es as [|e es IH]; intros planners w log Hes.
  - exists []. unfold stored. simpl. rewrite app_nil_r. by destruct w.
  - destruct (Hes e) as (l & o & Hp & Hlo); [by left|].
    cbn [foldl]. rewrite (store_entry_cached _ _ _ _ _ _ Hp Hlo).
    set (r := storage_store (fs w) (graph_ o) e.2).
    destruct (IH planners (mkWorld (heap w) r.2)
                (log ++ [mkAttempt e.2 (graph_ o) r.1])%list)
      as (log' & Hfold & Hall & Hfaith).
    { intros e' He'. apply Hes. by right. }
    exists (mkAttempt e.2 (graph_ o) r.1 :: log'). split_and!.
    + rewrite Hfold. simpl. by rewrite <- app_assoc.
    + constructor; [|done]. split; [done|]. exists l, o. by split_and!.
    + simpl. by split.
Qed.

Lemma load_after_other_stores path (log : list (StoreAttempt PlannerData)) :
  store_keeps_other_paths storage_load storage_store →
  Forall (λ att, att_path att ≠ path) log →
  ∀ (files : FS) d0,
    storage_load (stored' files log) path d0 = storage_load files path d0.
Proof.
  intros Hframe Hlog. induction Hlog as [|att log Hatt _ IH]; intros files d0; [done|].
  unfold stored. simpl. fold (stored' (storage_store files (att_data att) (att_path att)).2 log).
  rewrite IH.
  destruct (storage_store files (att_data att) (att_path att)) as [ok files'] eqn:Hst.
  simpl. eapply Hframe; [exact Hst|congruence].
Qed.

Lemma entries_NoDup {V} (m : gmap string V) : NoDup (entries m).
Proof.
  unfold entries. rewrite merge_sort_Permutation. apply NoDup_map_to_list.
Qed.

(** X6: over a storage on which a load reads what a successful store
    wrote and stores to other paths do not interfere: when the
    destructor of an allocator with any history has stored the planner
    of a name successfully to its path, and no other name is registered
    with that path, a load from that path reads the graph the instance
    had at destruction, and a first multi-query call with
    [load_planner_data] and that path on a new allocator builds its
    instance from that graph. *)
Theorem store_load_round_trip fs0 es st n path w' log T si spec store :
  load_after_store storage_load storage_store →
  store_keeps_other_paths storage_load storage_store →
  st = run PlannerData_new new_planner allocatePersistingPlanner storage_load
         (init fs0) es →
  planner_data_storage_paths_ st.1 !! n = Some path →
  (∀ n', planner_data_storage_paths_ st.1 !! n' = Some path → n' = n) →
  destroy st.1 st.2 = Ok (w', log) →
  (∀ att, att ∈ log → att_path att = path → att_ok att = true) →
  bool_option MQ (config_ spec) = Ok true →
  bool_option "load_planner_data" (config_ spec) = Ok true →
  bool_option "store_planner_data" (config_ spec) = Ok store →
  string_option "planner_data_path" (config_ spec) = path →
  ∃ l o a',
    planners_ st.1 !! n = Some (Some l)
    ∧ heap st.2 !! l = Some o
    ∧ storage_load (fs w') path (PlannerData_new si) = (true, graph_ o)
    ∧ alloc T si n spec new_allocator (mkWorld [] (fs w'))
      = Ok (Some 0, a',
            mkWorld [configured si n spec
                       (default (new_planner T si)
                          (allocatePersistingPlanner T (graph_ o)))]
                    (fs w')).
Proof.
  intros Hlaw Hframe -> Hpath Honly Hdestroy Hok Hmq Hload Hstore Hopt.
  pose proof (reachable_inv fs0 es) as [Hl Hr].
  destruct (run' (init' fs0) es) as [a w]. simpl in *.
  destruct (foldl_store_entry_faithful (entries (paths_ a)) (planners_ a) w [])
    as (log0 & Hfold & Hall & Hfaith).
  { intros [m q] He. apply elem_of_entries in He. simpl.
    destruct (Hr m q He) as [p Hp].
    destruct (Hl m p Hp) as (l & o & -> & Hlo & _). eauto. }
  unfold destructor in Hdestroy. rewrite Hfold in Hdestroy. simpl in Hdestroy.
  injection Hdestroy as <- <-.
  pose proof Hpath as Hin. apply elem_of_entries, list_elem_of_lookup in Hin as [i Hi].
  destruct (Forall2_lookup_l _ _ _ _ _ Hall Hi)
    as (att & Hatt & Hp & l & o & Hc & Hlo & Hd). simpl in *.
  assert (att_ok att = true) as Hattok.
  { apply Hok; [by eapply list_elem_of_lookup_2|done]. }
  assert (Forall (λ att', att_path att' ≠ path) (drop (S i) log0)) as Hlater.
  { apply Forall_lookup. intros j att' Hj Heq. rewrite lookup_drop in Hj.
    destruct (Forall2_lookup_r _ _ _ _ _ Hall Hj) as ([m q] & Hmq' & Hq & _).
    simpl in *. subst q.
    assert (m = n) as ->.
    { apply Honly. apply elem_of_entries. rewrite <- Heq.
      by eapply list_elem_of_lookup_2. }
    rewrite Heq in Hmq'.
    pose proof (NoDup_lookup _ _ _ _ (entries_NoDup (paths_ a)) Hi Hmq'). lia. }
  assert (∀ d0, storage_load (stored' (fs w) log0) path d0 = (true, graph_ o)) as Hread.
  { intros d0. rewrite <- (take_drop_middle _ _ _ Hatt) in Hfaith |- *.
    apply faithful_app in Hfaith as [_ [Hflag _]].
    rewrite stored_app. unfold stored at 1. cbn [foldl].
    fold (stored' (storage_store (stored' (fs w) (take i log0))
                     (att_data att) (att_path att)).2 (drop (S i) log0)).
    rewrite (load_after_other_stores _ _ Hframe Hlater).
    rewrite Hp, Hd in *.
    destruct (storage_store (stored' (fs w) (take i log0)) (graph_ o) path)
      as [ok files'] eqn:Hst.
    simpl in *. rewrite Hattok in Hflag. subst ok. by eapply Hlaw. }
  exists l, o. eexists. split_and!; [done|done|by apply Hread|].
  rewrite allocatePlanner_read. unfold allocatePlanner_outcome.
  rewrite Hmq. simpl. rewrite lookup_empty, Hload, Hstore. simpl.
  unfold constructed. rewrite Hopt, Hread. done.
Qed.

(** * Properties of the manager's inline members *)

(** ** The resource limits *)

Lemma set_limit_frame m u :
  known_planners_ (set_limit m u) = known_planners_ m
  ∧ state_space_factories_ (set_limit m u) = state_space_factories_ m
  ∧ planner_configs_ (set_limit m u) = planner_configs_ m
  ∧ planner_allocator_ (set_limit m u) = planner_allocator_ m
  ∧ cached_contexts_ (set_limit m u) = cached_contexts_ m.
Proof. by destruct u as [[]|]. Qed.

(** X7: after any sequence of calls of the six limit setters each
    getter returns the value of the last call of its own setter, or what
    it returned before when its setter was not called; the registered
    planners and state-space factories, the configurations, the
    allocator and the cached contexts are as before. *)
Theorem limit_setters_last_write_wins m us :
  (∀ k, get_limit k (foldl set_limit m us)
        = default (get_limit k m) (limit_set k us))
  ∧ getMaximumSolutionSegmentLength (foldl set_limit m us)
    = default (getMaximumSolutionSegmentLength m) (segment_length_set us)
  ∧ getRegisteredPlannerAllocators (foldl set_limit m us)
    = getRegisteredPlannerAllocators m
  ∧ getRegisteredStateSpaceFactories (foldl set_limit m us)
    = getRegisteredStateSpaceFactories m
  ∧ getPlannerConfigurations (foldl set_limit m us) = getPlannerConfigurations m
  ∧ planner_allocator_ (foldl set_limit m us) = planner_allocator_ m
  ∧ cached_contexts_ (foldl set_limit m us) = cached_contexts_ m.
Proof.
  induction us as [|u us IH] using rev_ind; [done|].
  destruct IH as (IHk & IHs & IH1 & IH2 & IH3 & IH4 & IH5).
  rewrite foldl_app. cbn [foldl].
  destruct (set_limit_frame (foldl set_limit m us) u) as (F1 & F2 & F3 & F4 & F5).
  unfold getRegisteredPlannerAllocators, getRegisteredStateSpaceFactories,
    getPlannerConfigurations, limit_set, segment_length_set in *.
  split_and!; [| |congruence..].
  - intros k. rewrite omap_app, last_app. simpl.
    destruct u as [k' v|mssl]; simpl.
    + case_decide as Hk; simpl.
      * subst k'. by destruct k.
      * rewrite <- IHk. by destruct k, k'.
    + rewrite <- IHk. by destruct k.
  - rewrite omap_app, last_app. simpl.
    destruct u as [k' v|mssl]; simpl; [|done].
    rewrite <- IHs. by destruct k'.
Qed.

(** ** The two registries *)

Lemma foldl_insert_lookup {V} (kvs : list (string * V)) (kv0 : gmap string V) k :
  foldl (λ acc kv, <[kv.1 := kv.2]> acc) kv0 kvs !! k
  = match last (filter (λ kv, kv.1 = k) kvs) with
    | Some kv => Some kv.2
    | None => kv0 !! k
    end.
Proof.
  induction kvs as [|kv kvs IH] using rev_ind; [done|].
  rewrite foldl_app, filter_app, last_app. cbn [foldl].
  rewrite lookup_insert. rewrite filter_cons, filter_nil. simpl.
  by destruct (decide (kv.1 = k)).
Qed.

Lemma register_planners_known m regs :
  known_planners_ (register_planners m regs)
  = foldl (λ kp reg, <[reg.1 := reg.2]> kp) (known_planners_ m) regs.
Proof.
  unfold register_planners. revert m.
  induction regs as [|reg regs IH]; intros m; [done|]. simpl. by rewrite IH.
Qed.

Lemma register_factories_known m factories :
  state_space_factories_ (register_factories m factories)
  = foldl (λ sf kv, <[kv.1 := kv.2]> sf) (state_space_factories_ m)
      ((λ f, (getType f, f)) <$> factories).
Proof.
  unfold register_factories. revert m.
  induction factories as [|f factories IH]; intros m; [done|]. simpl. by rewrite IH.
Qed.

(** X8: after any sequence of calls of [registerPlannerAllocator] the
    allocator found under an identifier is the one of the last call with
    that identifier, or the one found before when no call had it; the
    other members are untouched by a call. *)
Theorem registerPlannerAllocator_last_wins m regs planner_id :
  getRegisteredPlannerAllocators (register_planners m regs) !! planner_id
  = match last (filter (λ reg, reg.1 = planner_id) regs) with
    | Some reg => Some reg.2
    | None => getRegisteredPlannerAllocators m !! planner_id
    end
  ∧ ∀ id pa,
      getRegisteredStateSpaceFactories (registerPlannerAllocator id pa m)
      = getRegisteredStateSpaceFactories m
      ∧ getPlannerConfigurations (registerPlannerAllocator id pa m)
        = getPlannerConfigurations m
      ∧ cached_contexts_ (registerPlannerAllocator id pa m) = cached_contexts_ m.
Proof.
  split; [|done]. unfold getRegisteredPlannerAllocators.
  rewrite register_planners_known. apply foldl_insert_lookup.
Qed.

(** X9: [registerStateSpaceFactory] files a factory under its own type:
    when every factory of the manager is filed under its type, so is
    every factory after any sequence of registrations; the factory found
    under a type is the last one registered with that type, or the one
    found before when none was. *)
Theorem registerStateSpaceFactory_keyed_by_type m factories :
  (∀ t f, getRegisteredStateSpaceFactories m !! t = Some f → getType f = t) →
  (∀ t f, getRegisteredStateSpaceFactories (register_factories m factories) !! t
          = Some f → getType f = t)
  ∧ ∀ t, getRegisteredStateSpaceFactories (register_factories m factories) !! t
         = match last (filter (λ f, getType f = t) factories) with
           | Some f => Some f
           | None => getRegisteredStateSpaceFactories m !! t
           end.
Proof.
  intros Hm. unfold getRegisteredStateSpaceFactories in *.
  assert (∀ t, state_space_factories_ (register_factories m factories) !! t
               = match last (filter (λ f, getType f = t) factories) with
                 | Some f => Some f
                 | None => state_space_factories_ m !! t
                 end) as Hlast.
  { intros t. rewrite register_factories_known, foldl_insert_lookup.
    induction factories as [|f factories IH] using rev_ind; [done|].
    rewrite fmap_app, !filter_app, !last_app. simpl.
    rewrite !filter_cons, !filter_nil. simpl.
    case_decide; simpl; [done|]. apply IH. }
  split; [|done]. intros t f. rewrite Hlast.
  destruct (last _) as [g|] eqn:Hg; [|by apply Hm].
  intros [= ->]. apply last_Some_elem_of, list_elem_of_filter in Hg. tauto.
Qed.

End properties.

(** * The embedding at work on the in-memory OMPL *)

Example lexical_cast_bool_accepts :
  lexical_cast_bool "1" = Some true ∧ lexical_cast_bool "0" = Some false
  ∧ lexical_cast_bool "+1" = Some true ∧ lexical_cast_bool "-0" = Some false
  ∧ lexical_cast_bool "001" = Some true.
Proof. by split_and!. Qed.

Example lexical_cast_bool_rejects :
  lexical_cast_bool "" = None ∧ lexical_cast_bool "true" = None
  ∧ lexical_cast_bool "-1" = None ∧ lexical_cast_bool "10 " = None
  ∧ lexical_cast_bool "yes" = None.
Proof. by split_and!. Qed.

Example first_call_caches :
  planners_ Mock.first_call.1 !! "arm[rrt_fast]" = Some (Some 0)
  ∧ planner_data_storage_paths_ Mock.first_call.1 !! "arm[rrt_fast]"
    = Some "/tmp/rrt_fast.dat"
  ∧ length (heap Mock.first_call.2) = 1.
Proof. by vm_compute. Qed.

Example teardown_writes_the_graph :
  ∃ w, Mock.teardown Mock.solved.1 Mock.solved.2
       = Ok (w, [mkAttempt "/tmp/rrt_fast.dat" (7, [1; 2; 3]) true])
       ∧ fs w !! "/tmp/rrt_fast.dat" = Some (7, [1; 2; 3]).
Proof. eexists. split; by vm_compute. Qed.

Example teardown_goes_on_after_a_failure :
  ∃ w, Mock.teardown Mock.two_stored.1 Mock.two_stored.2
       = Ok (w, [mkAttempt "" (7, [4]) false;
                 mkAttempt "/tmp/rrt_fast.dat" (7, [5; 6]) true])
       ∧ fs w !! "/tmp/rrt_fast.dat" = Some (7, [5; 6]).
Proof. eexists. split; by vm_compute. Qed.

(** ** The reserved options and [setParams] *)

(** C2, on the code: in the first call of the scenario the configuration
    handed to [setParams] is [spec.config_] itself and still holds
    [multi_query_planning_enabled], [store_planner_data] and
    [planner_data_path]; in a single-shot call it still holds
    [load_planner_data]. *)
Theorem reserved_options_reach_setParams :
  (∃ a w o,
     Mock.allocate Mock.PRM 7 "arm[rrt_fast]" Mock.rrt_fast Mock.start.1 Mock.start.2
     = Ok (Some 0, a, w)
     ∧ heap w !! 0 = Some o
     ∧ params_ o = Some (config_ Mock.rrt_fast, true)
     ∧ config_ Mock.rrt_fast !! "multi_query_planning_enabled" = Some "1"
     ∧ config_ Mock.rrt_fast !! "store_planner_data" = Some "1"
     ∧ config_ Mock.rrt_fast !! "planner_data_path" = Some "/tmp/rrt_fast.dat")
  ∧ (∃ a w o,
       Mock.allocate Mock.RRT 7 "arm" Mock.single_shot_yes Mock.start.1 Mock.start.2
       = Ok (Some 0, a, w)
       ∧ heap w !! 0 = Some o
       ∧ params_ o = Some (config_ Mock.single_shot_yes, true)
       ∧ config_ Mock.single_shot_yes !! "load_planner_data" = Some "yes").
Proof.
  split; eexists _, _, _; (split; [by vm_compute|]); by vm_compute.
Qed.

(** ** The second call's own flag *)

(** C1 fails on the code as worded: the second call reads
    [multi_query_planning_enabled] from its own options before it looks
    at the cache.  After the first call of the scenario has cached
    pointer 0 under the name, a second call with that name and the flag
    set to 0, or without the flag, returns the new pointer 1, and a
    second call with the flag written true throws. *)
Lemma second_call_flag_decides :
  Mock.allocate Mock.PRM 7 "arm[rrt_fast]" Mock.rrt_fast Mock.start.1 Mock.start.2
  = Ok (Some 0, Mock.first_call.1, Mock.first_call.2)
  ∧ planners_ Mock.first_call.1 !! "arm[rrt_fast]" = Some (Some 0)
  ∧ (∃ w, Mock.allocate Mock.PRM 7 "arm[rrt_fast]" Mock.flag_off
            Mock.first_call.1 Mock.first_call.2
          = Ok (Some 1, Mock.first_call.1, w))
  ∧ (∃ w, Mock.allocate Mock.PRM 7 "arm[rrt_fast]" Mock.single_shot_yes
            Mock.first_call.1 Mock.first_call.2
          = Ok (Some 1, Mock.first_call.1, w))
  ∧ Mock.allocate Mock.PRM 7 "arm[rrt_fast]" Mock.rrt_fast_true
      Mock.first_call.1 Mock.first_call.2
    = Throw bad_lexical_cast.
Proof.
  split_and!; [by vm_compute|by vm_compute| | |by vm_compute];
    eexists; by vm_compute.
Qed.

(** ** Unreadable option values *)

(** C9 fails on the code: with the values as the specification's
    scenario writes them the call throws, and an unreadable
    [load_planner_data] in a single-shot configuration does not make the
    call throw. *)
Lemma scenario_values_rejected :
  Mock.allocate Mock.PRM 7 "arm[rrt_fast]" Mock.rrt_fast_true Mock.start.1 Mock.start.2
  = Throw bad_lexical_cast
  ∧ unparsable "load_planner_data" (config_ Mock.single_shot_yes)
  ∧ ∃ a w,
      Mock.allocate Mock.RRT 7 "arm" Mock.single_shot_yes Mock.start.1 Mock.start.2
      = Ok (Some 0, a, w).
Proof.
  split_and!.
  - by vm_compute.
  - exists "yes". by vm_compute.
  - eexists _, _. by vm_compute.
Qed.

(** * Instances of the theorems *)

Lemma allocatePlanner_cached_instance_witness :
  Mock.allocate Mock.RRT 8 "arm[rrt_fast]" Mock.other_options
    Mock.solved.1 Mock.solved.2
  = Ok (Some 0, Mock.solved.1, Mock.solved.2).
Proof.
  apply (allocatePlanner_cached_instance
           Mock.PlannerData_new Mock.new_planner Mock.allocatePersistingPlanner
           Mock.storage_load
           Mock.PRM 7 "arm[rrt_fast]" Mock.rrt_fast Mock.start.1 Mock.start.2
           (Some 0) Mock.first_call.1 Mock.first_call.2
           [Solve 0 (7, [1; 2; 3])] Mock.RRT 8 Mock.other_options);
    by vm_compute.
Defined.

Lemma allocatePlanner_single_shot_witness :
  ∃ l w1,
    Mock.allocate Mock.RRT 7 "arm" Mock.single_shot_yes
      Mock.first_call.1 Mock.first_call.2
    = Ok (Some l, Mock.first_call.1, w1)
    ∧ heap Mock.first_call.2 !! l = None.
Proof.
  destruct (allocatePlanner_single_shot
              Mock.PlannerData_new Mock.new_planner Mock.allocatePersistingPlanner
              Mock.storage_load
              ∅ [Allocate Mock.PRM 7 "arm[rrt_fast]" Mock.rrt_fast] Mock.first_call
              Mock.RRT 7 "arm" Mock.single_shot_yes eq_refl eq_refl)
    as (l & w1 & Hcall & Hfresh & _).
  exists l, w1. split; [exact Hcall|exact Hfresh].
Defined.

Lemma cached_entry_created_once_witness :
  (creations Mock.PlannerData_new Mock.new_planner Mock.allocatePersistingPlanner
     Mock.storage_load "arm[rrt_fast]" Mock.first_call
     [Allocate Mock.RRT 8 "arm[rrt_fast]" Mock.other_options;
      Solve 0 (7, [1; 2; 3])] ≤ 1)%nat
  ∧ planners_
      (Mock.history Mock.first_call
         [Allocate Mock.RRT 8 "arm[rrt_fast]" Mock.other_options;
          Solve 0 (7, [1; 2; 3])]).1 !! "arm[rrt_fast]"
    = Some (Some 0).
Proof.
  destruct (cached_entry_created_once
              Mock.PlannerData_new Mock.new_planner Mock.allocatePersistingPlanner
              Mock.storage_load Mock.first_call
              [Allocate Mock.RRT 8 "arm[rrt_fast]" Mock.other_options;
               Solve 0 (7, [1; 2; 3])] "arm[rrt_fast]") as [Hle Hkeep].
  split; [exact Hle|]. apply (Hkeep (Some 0)). by vm_compute.
Defined.

Lemma allocatePlanner_never_null_witness :
  Mock.allocate Mock.PRM 7 "arm[prm]" Mock.load_missing
    Mock.first_call.1 Mock.first_call.2
  ≠ Throw null_dereference.
Proof.
  apply (allocatePlanner_never_null
           Mock.PlannerData_new Mock.new_planner Mock.allocatePersistingPlanner
           Mock.storage_load
           ∅ [Allocate Mock.PRM 7 "arm[rrt_fast]" Mock.rrt_fast] Mock.first_call
           Mock.PRM 7 "arm[prm]" Mock.load_missing eq_refl).
Defined.


Lemma allocatePlanner_throws_iff_witness :
  ∃ e, Mock.allocate Mock.PRM 7 "arm[rrt_fast]" Mock.rrt_fast_true
         Mock.start.1 Mock.start.2 = Throw e.
Proof.
  apply (allocatePlanner_throws_iff
           Mock.PlannerData_new Mock.new_planner Mock.allocatePersistingPlanner
           Mock.storage_load
           Mock.PRM 7 "arm[rrt_fast]" Mock.rrt_fast_true Mock.start.1 Mock.start.2).
  left. exists "true". by vm_compute.
Defined.

Lemma destructor_stores_every_entry_witness :
  ∃ log,
    Mock.teardown Mock.solved.1 Mock.solved.2
    = Ok (mkWorld (heap Mock.solved.2)
            (stored Mock.storage_store (fs Mock.solved.2) log), log)
    ∧ Forall2 (attempt_of (planners_ Mock.solved.1) (heap Mock.solved.2))
        (entries (planner_data_storage_paths_ Mock.solved.1)) log.
Proof.
  destruct (destructor_stores_every_entry
              Mock.PlannerData_new Mock.new_planner Mock.allocatePersistingPlanner
              Mock.storage_load Mock.storage_store
              ∅ [Allocate Mock.PRM 7 "arm[rrt_fast]" Mock.rrt_fast;
                 Solve 0 (7, [1; 2; 3])] Mock.solved eq_refl)
    as (log & Hcall & Hall & _).
  exists log. split; [exact Hcall|exact Hall].
Defined.

Lemma getPlanningContext_twice_witness :
  Mock.context "arm[rrt_fast]" "" Mock.built.1.2 Mock.built.2
  = inr (0, Mock.built.1.2, Mock.built.2).
Proof.
  apply (getPlanningContext_twice
           Mock.PlannerData_new Mock.new_planner Mock.allocatePersistingPlanner
           Mock.storage_load Mock.select_by_inspection
           "arm[rrt_fast]" "" Mock.manager Mock.memory
           0 Mock.built.1.2 Mock.built.2).
  by vm_compute.
Defined.

Lemma setPlannerConfigurations_invalidates_witness :
  cached_contexts_ (setPlannerConfigurations Mock.arm_configs Mock.built.1.2) = ∅
  ∧ cached_contexts_ Mock.built.1.2 !! ("arm", "arm[rrt_fast]", "JointModel") = Some 0
  ∧ Mock.rebuilt.1.1 = 1.
Proof.
  destruct (setPlannerConfigurations_invalidates
              Mock.PlannerData_new Mock.new_planner Mock.allocatePersistingPlanner
              Mock.storage_load Mock.select_by_inspection
              Mock.arm_configs "arm[rrt_fast]" "" Mock.built.1.2 Mock.built.2
              Mock.rebuilt.1.1 Mock.rebuilt.1.2 Mock.rebuilt.2)
    as (_ & Hempty & _).
  - apply (cache_wf_getPlanningContext
             Mock.PlannerData_new Mock.new_planner Mock.allocatePersistingPlanner
             Mock.storage_load Mock.select_by_inspection
             "arm[rrt_fast]" "" Mock.manager Mock.memory
             Mock.built.1.1 Mock.built.1.2 Mock.built.2).
    + apply map_Forall_empty.
    + by vm_compute.
  - by vm_compute.
  - split_and!; [exact Hempty|by vm_compute|by vm_compute].
Defined.

(** ** Instances of the further properties *)

Lemma allocatePlanner_frame_witness :
  fs (Mock.history Mock.first_call
        [Allocate Mock.RRT 7 "arm" Mock.single_shot_yes]).2
  = fs Mock.first_call.2
  ∧ heap Mock.first_call.2
    `prefix_of` heap (Mock.history Mock.first_call
                        [Allocate Mock.RRT 7 "arm" Mock.single_shot_yes]).2.
Proof.
  assert (Mock.allocate Mock.RRT 7 "arm" Mock.single_shot_yes
            Mock.first_call.1 Mock.first_call.2
          = Ok (Some 1,
                (Mock.history Mock.first_call
                   [Allocate Mock.RRT 7 "arm" Mock.single_shot_yes]).1,
                (Mock.history Mock.first_call
                   [Allocate Mock.RRT 7 "arm" Mock.single_shot_yes]).2)) as Hcall
    by by vm_compute.
  destruct (allocatePlanner_frame
              Mock.PlannerData_new Mock.new_planner Mock.allocatePersistingPlanner
              Mock.storage_load
              ∅ [Allocate Mock.PRM 7 "arm[rrt_fast]" Mock.rrt_fast] Mock.first_call
              Mock.RRT 7 "arm" Mock.single_shot_yes
              (Some 1) _ _ eq_refl Hcall)
    as (Hfs & Hheap & _).
  split; [exact Hfs|exact Hheap].
Defined.

Lemma storage_path_fixed_at_creation_witness :
  planner_data_storage_paths_
    (Mock.history Mock.first_call
       [Allocate Mock.RRT 8 "arm[rrt_fast]" Mock.other_options]).1
    !! "arm[rrt_fast]"
  = Some "/tmp/rrt_fast.dat".
Proof.
  transitivity (planner_data_storage_paths_ Mock.first_call.1 !! "arm[rrt_fast]");
    [|by vm_compute].
  apply (storage_path_fixed_at_creation
           Mock.PlannerData_new Mock.new_planner Mock.allocatePersistingPlanner
           Mock.storage_load Mock.first_call
           [Allocate Mock.RRT 8 "arm[rrt_fast]" Mock.other_options]
           "arm[rrt_fast]" (Some 0)).
  by vm_compute.
Defined.

Lemma cached_instances_distinct_witness :
  planners_ Mock.two_stored.1 !! "arm[a]"
  ≠ planners_ Mock.two_stored.1 !! "arm[rrt_fast]".
Proof.
  intros Heq.
  apply (cached_instances_distinct
           Mock.PlannerData_new Mock.new_planner Mock.allocatePersistingPlanner
           Mock.storage_load
           ∅ [Allocate Mock.PRM 7 "arm[a]" Mock.no_path;
              Allocate Mock.PRM 7 "arm[rrt_fast]" Mock.rrt_fast;
              Solve 0 (7, [4]); Solve 1 (7, [5; 6])]
           Mock.two_stored "arm[a]" "arm[rrt_fast]" (Some 0) (Some 1) eq_refl);
    [done|by vm_compute|by vm_compute|].
  revert Heq. by vm_compute.
Defined.

Lemma cached_instance_named_witness :
  ∃ o, heap Mock.solved.2 !! 0 = Some o ∧ name_ o = "arm[rrt_fast]".
Proof.
  destruct (heap Mock.solved.2 !! 0) as [o|] eqn:Ho; [|by vm_compute in Ho].
  exists o. split; [done|].
  destruct (cached_instance_named
              Mock.PlannerData_new Mock.new_planner Mock.allocatePersistingPlanner
              Mock.storage_load
              ∅ [Allocate Mock.PRM 7 "arm[rrt_fast]" Mock.rrt_fast;
                 Solve 0 (7, [1; 2; 3])] Mock.solved eq_refl) as [Hnamed _].
  apply (Hnamed "arm[rrt_fast]" 0 o); [by vm_compute|exact Ho|done].
Defined.

Lemma storage_untouched_without_store_witness :
  Mock.teardown
    (Mock.history Mock.start [Allocate Mock.PRM 7 "arm[prm]" Mock.load_missing]).1
    (Mock.history Mock.start [Allocate Mock.PRM 7 "arm[prm]" Mock.load_missing]).2
  = Ok ((Mock.history Mock.start
           [Allocate Mock.PRM 7 "arm[prm]" Mock.load_missing]).2, []).
Proof.
  destruct (storage_untouched_without_store
              Mock.PlannerData_new Mock.new_planner Mock.allocatePersistingPlanner
              Mock.storage_load Mock.storage_store
              ∅ [Allocate Mock.PRM 7 "arm[prm]" Mock.load_missing]
              (Mock.history Mock.start
                 [Allocate Mock.PRM 7 "arm[prm]" Mock.load_missing]) eq_refl)
    as [_ Hnone].
  apply Hnone. intros T si n spec Hin.
  apply list_elem_of_singleton in Hin. injection Hin as -> -> -> ->.
  by vm_compute.
Defined.

Lemma mock_load_after_store :
  load_after_store Mock.storage_load Mock.storage_store.
Proof.
  intros files d path files' d0. unfold Mock.storage_store, Mock.storage_load.
  destruct (path =? ""); [done|]. intros [= <-]. unfold Mock.FS in *.
  by rewrite lookup_insert_eq.
Qed.

Lemma mock_store_keeps_other_paths :
  store_keeps_other_paths Mock.storage_load Mock.storage_store.
Proof.
  intros files d path ok files' path' d0.
  unfold Mock.storage_store, Mock.storage_load.
  destruct (path =? ""); intros [= <- <-] Hne; [done|]. unfold Mock.FS in *.
  by rewrite lookup_insert_ne.
Qed.

Lemma store_load_round_trip_witness :
  ∃ l o a',
    planners_ Mock.solved.1 !! "arm[rrt_fast]" = Some (Some l)
    ∧ heap Mock.solved.2 !! l = Some o
    ∧ Mock.storage_load (fs Mock.torn_down.1) "/tmp/rrt_fast.dat"
        (Mock.PlannerData_new 9)
      = (true, graph_ o)
    ∧ Mock.allocate Mock.PRM 9 "arm[rrt_fast]" Mock.reload
        new_allocator (mkWorld [] (fs Mock.torn_down.1))
      = Ok (Some 0, a',
            mkWorld
              [configured 9 "arm[rrt_fast]" Mock.reload
                 (default (Mock.new_planner Mock.PRM 9)
                    (Mock.allocatePersistingPlanner Mock.PRM (graph_ o)))]
              (fs Mock.torn_down.1)).
Proof.
  apply (store_load_round_trip
           Mock.PlannerData_new Mock.new_planner Mock.allocatePersistingPlanner
           Mock.storage_load Mock.storage_store
           ∅ [Allocate Mock.PRM 7 "arm[rrt_fast]" Mock.rrt_fast;
              Solve 0 (7, [1; 2; 3])]
           Mock.solved "arm[rrt_fast]" "/tmp/rrt_fast.dat"
           Mock.torn_down.1 Mock.torn_down.2 Mock.PRM 9 Mock.reload false
           mock_load_after_store mock_store_keeps_other_paths eq_refl).
  - by vm_compute.
  - intros n' Hn'. destruct (decide (n' = "arm[rrt_fast]")) as [->|Hne]; [done|].
    assert (planner_data_storage_paths_ Mock.solved.1
            = {["arm[rrt_fast]" := "/tmp/rrt_fast.dat"]}) as Hpaths by by vm_compute.
    rewrite Hpaths, lookup_singleton_ne in Hn' by done. done.
  - by vm_compute.
  - intros att Hin _.
    assert (Mock.torn_down.2
            = [mkAttempt "/tmp/rrt_fast.dat" (7, [1; 2; 3]) true]) as Hlog
      by by vm_compute.
    rewrite Hlog in Hin. apply list_elem_of_singleton in Hin. by subst att.
  - by vm_compute.
  - by vm_compute.
  - by vm_compute.
  - by vm_compute.
Defined.

Lemma registerStateSpaceFactory_keyed_by_type_witness :
  getType <$>
    (getRegisteredStateSpaceFactories
       (register_factories Mock.manager
          [mkFactory "PoseModel" String.length; mkFactory "JointModel" (λ _, 0)])
       !! "JointModel")
  = Some "JointModel".
Proof.
  destruct (registerStateSpaceFactory_keyed_by_type Mock.manager
              [mkFactory "PoseModel" String.length; mkFactory "JointModel" (λ _, 0)])
    as [Hkeyed _].
  - intros t f.
    assert (getRegisteredStateSpaceFactories Mock.manager
            = {["JointModel" := mkFactory "JointModel" String.length]}) as Hm
      by by vm_compute.
    rewrite Hm. intros [<- <-]%lookup_singleton_Some. done.
  - destruct (getRegisteredStateSpaceFactories _ !! "JointModel") as [f|] eqn:Hf;
      [|by vm_compute in Hf].
    simpl. f_equal. by apply Hkeyed.
Defined.
